(** * A shallow embedding of [psutil_prometheus.py]

    The exporter renders a registry of metric descriptors as Prometheus
    text.  This file embeds the parts of [src/psutil_prometheus.py] that the
    specification talks about: the value flattener [_tostr], the descriptor
    rendering [Metric.get], the lifecycle code of [SensorMetric] and
    [GPUMetric], the [GPUMeta] device wrapper, the [RunningDelta] and
    [DiskRequestSizer] helpers, the registry [ALL_METRICS] with
    [Metric.register], and the loop of [StatsPrintHandler.do_GET] together
    with the context entering of [__main__].

    Python exceptions are the [Raise] case of the result type [res]; code
    that both mutates state and may raise returns the state reached at the
    point where it stopped. *)

From Stdlib Require Import ZArith QArith Ascii Lia.
From stdpp Require Import base list strings gmap.

Local Open Scope stdpp_scope.
Set Warnings "-register-all".

(** ** Exceptions and the error monad *)

(** The Python exceptions that the modelled code raises or catches. *)
Inductive exn :=
| IndexError                  (* [axes[0]] on an empty list *)
| ZeroDivisionError           (* [x / 0] *)
| NameError (n : string)      (* an unbound name *)
| TypeError                   (* an operand of the wrong type *)
| AssertionError              (* a failed [assert] *)
| NVMLError_LibraryNotFound   (* raised by [nvmlInit] without the NVML library *)
| NVMLError (code : Z)        (* any other NVML error *)
| SensorsError                (* raised by the lm-sensors bindings *)
| QueryError (msg : string)   (* an error raised inside a query function *)
| KeyError (key : string).     (* [d[k]] for a key [k] that [d] lacks *)

Inductive res (A : Type) :=
| Ok (a : A)
| Raise (e : exn).
Arguments Ok {A} a.
Arguments Raise {A} e.

Definition res_bind {A B} (m : res A) (k : A -> res B) : res B :=
  match m with
  | Ok a => k a
  | Raise e => Raise e
  end.

Notation "'let*' x ':=' m 'in' k" := (res_bind m (fun x => k))
  (at level 200, x name, m at level 100, k at level 200).

(** ** Python text formatting *)

(** The double quote character, escaped with a backslash in the Python source. *)
Definition dq : string := String (ascii_of_nat 34) EmptyString.

Fixpoint digits_aux (fuel : nat) (n : N) (acc : string) : string :=
  match fuel with
  | O => acc
  | S f =>
      let acc' := String (ascii_of_N (48 + N.modulo n 10)) acc in
      if N.eqb (N.div n 10) 0 then acc' else digits_aux f (N.div n 10) acc'
  end.

(** [str(n)] of a non-negative Python int. *)
Definition str_N (n : N) : string := digits_aux (S (N.size_nat n)) n "".

(** [str(z)] of a Python int. *)
Definition str_Z (z : Z) : string :=
  if Z.ltb z 0 then "-" +:+ str_N (Z.to_N (- z)) else str_N (Z.to_N z).

Definition str_nat (n : nat) : string := str_N (N.of_nat n).

(** [k] zeros followed by [s]. *)
Fixpoint zeros (k : nat) (s : string) : string :=
  match k with O => s | S k' => String "0"%char (zeros k' s) end.

(** The number of decimals of the exact expansion of [num/den], if it
    terminates within 17 decimals. *)
Fixpoint decimals_needed (fuel k : nat) (num : N) (den : positive) : option nat :=
  if N.eqb (N.modulo (num * 10 ^ N.of_nat k) (Npos den)) 0 then Some k
  else match fuel with
       | O => None
       | S f => decimals_needed f (S k) num den
       end.

(** [str(x)] of a Python float [x], kept as the rational it stands for.
    Python prints the shortest decimal that reads back to the same float;
    for a value of magnitude in [1e-4, 1e16) whose exact decimal expansion
    has at most 17 significant digits (the values evaluated in this file)
    that decimal is the exact expansion, with [.0] after an integer.  Other
    values are printed cut at 17 decimals. *)
Definition str_float (q : Q) : string :=
  let sign := if Z.ltb (Qnum q) 0 then "-" else "" in
  let num := Z.to_N (Z.abs (Qnum q)) in
  let den := Qden q in
  let k := match decimals_needed 17 0 num den with Some k => k | None => 17 end in
  let m := N.div (num * 10 ^ N.of_nat k) (Npos den) in
  match k with
  | O => sign +:+ str_N m +:+ ".0"
  | _ =>
      let ip := N.div m (10 ^ N.of_nat k) in
      let fp := str_N (N.modulo m (10 ^ N.of_nat k)) in
      sign +:+ str_N ip +:+ "." +:+ zeros (k - String.length fp) fp
  end.

(** ** Values returned by query functions *)

(** A scalar: a value that is neither a list, nor has [_fields], nor is a
    dict.  Python ints, floats and strings are the ones the queries return. *)
Inductive scalar :=
| SInt (z : Z)
| SFloat (q : Q)
| SStr (s : string).

Definition str_scalar (s : scalar) : string :=
  match s with
  | SInt z => str_Z z
  | SFloat q => str_float q
  | SStr s => s
  end.

(** Whether a scalar is a Python [float]. *)
Definition is_float (s : scalar) : bool :=
  match s with SFloat _ => true | _ => false end.

(** A query result as [_tostr_inner] dispatches on it: a [list], an object
    with [_fields] (a namedtuple, its fields in [_fields] order), a [dict]
    (its items in insertion order; keys are strings in this program), or
    anything else. *)
Inductive pyval :=
| VScalar (s : scalar)
| VList (l : list pyval)
| VNamedTuple (fs : list (string * pyval))
| VDict (kv : list (string * pyval)).

(** [lambda x: x/100]: Python's true division by 100, taken exactly (a
    double quotient is rounded, so its text can differ from the exact one). *)
Definition div100 (s : scalar) : res scalar :=
  match s with
  | SInt z => Ok (SFloat (Qdiv (inject_Z z) 100))
  | SFloat q => Ok (SFloat (Qdiv q 100))
  | SStr _ => Raise TypeError
  end.

(** [lambda x: x], the default [fmt] of [Metric]. *)
Definition fmt_id (s : scalar) : res scalar := Ok s.

(** ** The flattener [_tostr] (lines 16-37) *)

(** The [for] loops of [_tostr_inner]: [rv.extend(f(i, x))] for each
    element [x] at index [i], in order, stopping at the first exception. *)
Fixpoint extend_each {A : Type} (f : nat -> A -> res (list string))
    (i : nat) (l : list A) : res (list string) :=
  match l with
  | [] => Ok []
  | x :: l' =>
      let* r := f i x in
      let* rest := extend_each f (S i) l' in
      Ok (r ++ rest)
  end.

Section Tostr.
(** The arguments [name] and [**kwargs] of [_tostr]: [fmt] is [Some f]
    when [fmt] is in [kwargs]. *)
Variable name : string.
Variable fmt : option (scalar -> res scalar).

(** The label part: axis name, equals sign, key between double quotes
    (the format call on [axes[0]] and the key in lines 21, 24 and 27). *)
Definition label (axes : list string) (k : string) : res string :=
  match axes with
  | [] => Raise IndexError
  | a :: _ => Ok (a +:+ "=" +:+ dq +:+ k +:+ dq)
  end.

(** The line of a scalar reached with the label parts [parts]. *)
Definition leaf_line (parts : list string) (val : scalar) : string :=
  match parts with
  | [] => name +:+ " " +:+ str_scalar val
  | _ :: _ => name +:+ "{" +:+ String.concat "," parts +:+ "} " +:+ str_scalar val
  end.

(** [val = kwargs["fmt"](val)] when [fmt] is given. *)
Definition apply_fmt (s : scalar) : res scalar :=
  match fmt with Some f => f s | None => Ok s end.

Fixpoint _tostr_inner (parts : list string) (val : pyval) (axes : list string)
    {struct val} : res (list string) :=
  match val with
  | VList l =>
      extend_each (fun i v =>
        let* p := label axes (str_nat i) in
        _tostr_inner (parts ++ [p]) v (tail axes)) 0 l
  | VNamedTuple fs =>
      extend_each (fun _ kv =>
        let* p := label axes kv.1 in
        _tostr_inner (parts ++ [p]) kv.2 (tail axes)) 0 fs
  | VDict kv =>
      extend_each (fun _ kv =>
        let* p := label axes kv.1 in
        _tostr_inner (parts ++ [p]) kv.2 (tail axes)) 0 kv
  | VScalar s =>
      let* s' := apply_fmt s in
      Ok [leaf_line parts s']
  end.

Definition _tostr (data : pyval) (labels : list string) : res (list string) :=
  _tostr_inner [] data labels.
End Tostr.


(** The label part of one axis name and one key. *)
Definition mk_label (a k : string) : string := a +:+ "=" +:+ dq +:+ k +:+ dq.

(** [f i x] for each element [x] at index [i], concatenated. *)
Fixpoint flat_each {A B : Type} (f : nat -> A -> list B) (i : nat) (l : list A) : list B :=
  match l with
  | [] => []
  | x :: l' => f i x ++ flat_each f (S i) l'
  end.

(** The scalars of a nested value in traversal order, each with its key
    path: the list indices and field names crossed to reach it.  The length
    of the key path is the nesting depth at which the scalar sits. *)
Fixpoint paths (v : pyval) : list (list string * scalar) :=
  match v with
  | VScalar s => [([], s)]
  | VList l =>
      flat_each (fun i x => (fun p => (str_nat i :: p.1, p.2)) <$> paths x) 0 l
  | VNamedTuple fs =>
      flat_each (fun _ kv => (fun p => (kv.1 :: p.1, p.2)) <$> paths kv.2) 0 fs
  | VDict kv =>
      flat_each (fun _ kv => (fun p => (kv.1 :: p.1, p.2)) <$> paths kv.2) 0 kv
  end.

(** ** [RunningDelta] and [DiskRequestSizer] (lines 145-172) *)

(** [RunningDelta.__call__]: the delta and the new [self.prev]. *)
Definition running_delta (prev x : Z) : Z * Z := ((x - prev)%Z, x).

(** The fields of a psutil disk I/O counter that the sizer reads. *)
Record disk_io := mk_disk_io {
  read_bytes : Z; read_count : Z; write_bytes : Z; write_count : Z }.

(** The [prev] fields of the four [RunningDelta]s of a [DiskRequestSizer],
    all 0 after [__init__]. *)
Record sizer := mk_sizer { rbD : Z; rcD : Z; wbD : Z; wcD : Z }.

Definition sizer_init : sizer := mk_sizer 0 0 0 0.

(** Python's true division of two ints. *)
Definition py_div (a b : Z) : res Q :=
  if Z.eqb b 0 then Raise ZeroDivisionError else Ok (Qred (Qdiv (inject_Z a) (inject_Z b))).

(** [DiskRequestSizer.__call__]: the dict it returns (keys in insertion
    order), and the sizer state after the call; all four deltas are taken
    before the write ratio is computed. *)
Definition DiskRequestSizer_call (self : sizer) (dioc : disk_io)
    : res (list (string * Q)) * sizer :=
  let (rb, prb) := running_delta (rbD self) (read_bytes dioc) in
  let (rc, prc) := running_delta (rcD self) (read_count dioc) in
  let rv1 : res (list (string * Q)) :=
    if Z.ltb 0 rc then (let* q := py_div rb rc in Ok [("read", q)]) else Ok [] in
  let (wb, pwb) := running_delta (wbD self) (write_bytes dioc) in
  let (wc, pwc) := running_delta (wcD self) (write_count dioc) in
  let self' := mk_sizer prb prc pwb pwc in
  let rv2 :=
    let* rv := rv1 in
    if Z.ltb 0 rc then (let* q := py_div wb wc in Ok (rv ++ [("write", q)])) else Ok rv in
  (rv2, self').

(** The results of successive calls of one long-lived sizer. *)
Fixpoint sizer_polls (self : sizer) (ds : list disk_io) : list (res (list (string * Q))) :=
  match ds with
  | [] => []
  | d :: ds' => let (r, self') := DiskRequestSizer_call self d in r :: sizer_polls self' ds'
  end.

(** ** [GPUMeta] (lines 297-315) *)

Section GPUMeta.
(** NVML device handles and the NVML calls [GPUMeta] makes. *)
Context {handle : Type}.
Context (nvmlDeviceGetCount : res nat)
        (nvmlDeviceGetHandleByIndex : nat -> res handle)
        (nvmlDeviceGetUUID : handle -> res string).

(** [gm_init] is [self._init] (the class default [False] until the first
    call sets the instance attribute); [gm_id_handles] is the class-level
    list [GPUMeta._id_handles], shared by every instance, which
    [self._id_handles.append] mutates in place. *)
Record gpumeta_state := mk_gpumeta_state {
  gm_init : bool;
  gm_id_handles : list (string * handle) }.

(** The loop of lines 308-311 over the device indices [idx]. *)
Fixpoint add_devices (idx : list nat) (ids : list (string * handle))
    : res unit * list (string * handle) :=
  match idx with
  | [] => (Ok tt, ids)
  | i :: idx' =>
      match nvmlDeviceGetHandleByIndex i with
      | Raise e => (Raise e, ids)
      | Ok h =>
          match nvmlDeviceGetUUID h with
          | Raise e => (Raise e, ids)
          | Ok id => add_devices idx' (ids ++ [(id, h)])
          end
      end
  end.

(** What the name [handles] of line 313 is bound to: nothing.  It is no
    local of [__call__] (which binds [i], [handle] and [id]), no global
    of the module (its own definitions and the names that
    [from py3nvml.py3nvml import *] brings in) and no builtin, so the
    lookup raises [NameError]. *)
Definition global_handles : option (list (string * handle)) := None.

Fixpoint map_res {A B} (f : A -> res B) (l : list A) : res (list B) :=
  match l with
  | [] => Ok []
  | x :: l' => let* y := f x in let* ys := map_res f l' in Ok (y :: ys)
  end.

(** [GPUMeta.__call__] for the wrapped per-device function [fn]. *)
Definition GPUMeta_call (fn : handle -> res pyval) (self : gpumeta_state)
    : res pyval * gpumeta_state :=
  let (r0, self1) :=
    if gm_init self then (Ok tt, self)
    else match nvmlDeviceGetCount with
         | Raise e => (Raise e, mk_gpumeta_state true (gm_id_handles self))
         | Ok n =>
             let (r, ids) := add_devices (seq 0 n) (gm_id_handles self) in
             (r, mk_gpumeta_state true ids)
         end in
  match r0 with
  | Raise e => (Raise e, self1)
  | Ok _ =>
      let body :=
        match global_handles with
        | None => Raise (NameError "handles")
        | Some hs => let* kvs := map_res (fun ih => let* v := fn ih.2 in Ok (ih.1, v)) hs in
                     Ok (VDict kvs)
        end in
      (* try: ... except: return [] *)
      match body with
      | Ok v => (Ok v, self1)
      | Raise _ => (Ok (VList []), self1)
      end
  end.
(** The device enumeration that [__call__] runs on its first call
    (lines 306-311), with the exception it raises, if any. *)
Definition enumeration (self : gpumeta_state) : res unit :=
  match nvmlDeviceGetCount with
  | Raise e => Raise e
  | Ok n => fst (add_devices (seq 0 n) (gm_id_handles self))
  end.
End GPUMeta.

(** ** The query functions of the module *)

(** [s[n:]] of a Python string: [s] without its first [n] characters,
    empty when [s] is shorter. *)
Fixpoint str_drop (n : nat) (s : string) : string :=
  match n, s with
  | O, _ => s
  | S _, EmptyString => EmptyString
  | S n', String _ s' => str_drop n' s'
  end.

(** [d[k] = v] on a dict kept as its items in insertion order: a key
    already present keeps its place and gets the new value. *)
Fixpoint dict_set {V} (d : list (string * V)) (k : string) (v : V) : list (string * V) :=
  match d with
  | [] => [(k, v)]
  | (k', v') :: d' => if String.eqb k' k then (k', v) :: d' else (k', v') :: dict_set d' k v
  end.

(** [d[k]] on such a dict. *)
Fixpoint dict_get {V} (d : list (string * V)) (k : string) : res V :=
  match d with
  | [] => Raise (KeyError k)
  | (k', v) :: d' => if String.eqb k' k then Ok v else dict_get d' k
  end.

(** Successive calls of one [RunningDelta] starting from [prev]: the
    values returned and the final [self.prev]. *)
Fixpoint running_deltas (prev : Z) (xs : list Z) : list Z * Z :=
  match xs with
  | [] => ([], prev)
  | x :: xs' =>
      let (d, prev') := running_delta prev x in
      let (ds, last) := running_deltas prev' xs' in
      (d :: ds, last)
  end.

(** The sizer state whose four [prev] fields are the counters [d]. *)
Definition sizer_of (d : disk_io) : sizer :=
  mk_sizer (read_bytes d) (read_count d) (write_bytes d) (write_count d).

(** The fields of a [psutil.disk_partitions()] entry that [disk_meta] reads. *)
Record partition := mk_partition { device : string; mountpoint : string }.

Section DiskMeta.
Context {D V S : Type}.
(** [fn(p, dioc)], with the state that [fn] keeps between calls (a
    [DiskRequestSizer] keeps its running deltas). *)
Context (fn : partition -> D -> S -> res V * S).

(** The loop of [_retfunc] (lines 130-132) over the partitions [ps],
    filling the dict [parts].  The right-hand side [fn(p, ioc[...])] is
    evaluated before the item is stored. *)
Fixpoint disk_meta_loop (ioc : gmap string D) (ps : list partition)
    (parts : list (string * V)) (st : S) : res (list (string * V)) * S :=
  match ps with
  | [] => (Ok parts, st)
  | p :: ps' =>
      if bool_decide (mountpoint p ∈ ["/boot"]) then disk_meta_loop ioc ps' parts st
      else match ioc !! str_drop 5 (device p) with
           | None => (Raise (KeyError (str_drop 5 (device p))), st)
           | Some dioc =>
               let (r, st') := fn p dioc st in
               match r with
               | Raise e => (Raise e, st')
               | Ok v => disk_meta_loop ioc ps' (dict_set parts (mountpoint p) v) st'
               end
           end
  end.

(** [disk_meta(fn)()] (lines 126-134) on the per-disk counters [ioc] of
    [psutil.disk_io_counters(perdisk=True)] and the partitions [ps] of
    [psutil.disk_partitions()]. *)
Definition disk_meta (ioc : gmap string D) (ps : list partition) (st : S)
    : res (list (string * V)) * S :=
  disk_meta_loop ioc ps [] st.
End DiskMeta.

(** [disk_req_size = disk_meta(DiskRequestSizer())] (line 174): a single
    sizer object, shared by the calls for every partition. *)
Definition disk_req_size (ioc : gmap string disk_io) (ps : list partition) (st : sizer)
    : res (list (string * list (string * Q))) * sizer :=
  disk_meta (fun _ dioc self => DiskRequestSizer_call self dioc) ioc ps st.

(** The fields of a [psutil.net_io_counters(pernic=True)] entry that
    [netio] reads. *)
Record nic := mk_nic { bytes_sent : Z; bytes_recv : Z }.

(** The loop of [netio] (lines 180-182) over the items of the NIC dict. *)
Fixpoint netio_loop (nics : list (string * nic)) (parts : list (string * pyval))
    : list (string * pyval) :=
  match nics with
  | [] => parts
  | (k1, n) :: nics' =>
      netio_loop nics'
        (if negb (String.eqb k1 "lo")
         then dict_set parts k1 (VDict [("sent", VScalar (SInt (bytes_sent n)));
                                        ("recv", VScalar (SInt (bytes_recv n)))])
         else parts)
  end.

(** [netio()] (lines 178-183) on the items of [psutil.net_io_counters(pernic=True)]. *)
Definition netio (nics : list (string * nic)) : pyval := VDict (netio_loop nics []).

(** The fields of a [psutil.cpu_times_percent(percpu=True)] entry, floats
    kept as the rationals they stand for (sums are taken exactly). *)
Record cputimes := mk_cputimes {
  user : Q; system : Q; idle : Q; iowait : Q; irq : Q; softirq : Q;
  nice : Q; steal : Q; guest : Q; guest_nice : Q }.

(** The dict [cpustat] built for one CPU (lines 92-94).  The sums are
    taken exactly; Python adds doubles, whose rounded sum can print
    differently (0.1 + 0.2 prints as 0.30000000000000004). *)
Definition cpustat (c : cputimes) : list (string * pyval) :=
  let d := [("user", VScalar (SFloat (user c))); ("system", VScalar (SFloat (system c)));
            ("idle", VScalar (SFloat (idle c))); ("iowait", VScalar (SFloat (iowait c)))] in
  let d := dict_set d "allirq" (VScalar (SFloat (irq c + softirq c)%Q)) in
  dict_set d "other" (VScalar (SFloat (nice c + steal c + guest c + guest_nice c)%Q)).

(** [cpu()] (lines 89-96) on the per-CPU entries [ts]. *)
Definition cpu (ts : list cputimes) : pyval := VList (map (fun c => VDict (cpustat c)) ts).

(** The six quantities of one CPU that the [cpu] metric reports, in the
    order of its dict. *)
Definition cpu_fields (c : cputimes) : list (string * Q) :=
  [("user", user c); ("system", system c); ("idle", idle c); ("iowait", iowait c);
   ("allirq", (irq c + softirq c)%Q); ("other", (nice c + steal c + guest c + guest_nice c)%Q)].

(** [c.lower()] on an ASCII character (the labels of lm-sensors are ASCII). *)
Definition ascii_lower (c : ascii) : ascii :=
  if (65 <=? nat_of_ascii c) && (nat_of_ascii c <=? 90)
  then ascii_of_nat (nat_of_ascii c + 32) else c.

Fixpoint str_lower (s : string) : string :=
  match s with
  | EmptyString => EmptyString
  | String c s' => String (ascii_lower c) (str_lower s')
  end.

(** [s.replace(" ", "_")]: a one-character pattern, replaced character by
    character. *)
Fixpoint replace_space (s : string) : string :=
  match s with
  | EmptyString => EmptyString
  | String c s' => String (if Ascii.eqb c " "%char then "_"%char else c) (replace_space s')
  end.

(** [sanitizeName] (lines 233-234). *)
Definition sanitizeName (name : string) : string := replace_space (str_lower name).

(** What [coretemp] reads of the lm-sensors objects: a chip with its name
    ([chip_snprintf_name]) and features, a feature with its name, label
    ([get_label]) and subfeatures, a subfeature with its name (decoded)
    and number. *)
Record subfeature := mk_subfeature { sf_name : string; sf_number : nat }.
Record feature := mk_feature {
  f_name : string; f_label : string; f_subfeatures : list subfeature }.
Record chip := mk_chip { chip_name : string; chip_features : list feature }.

Section Coretemp.
(** [sensors.get_value(chip, number)]. *)
Context (get_value : chip -> nat -> res scalar).

(** The key [sf.name[len(feature.name)+1:]] of a subfeature. *)
Definition sf_key (f : feature) (sf : subfeature) : string :=
  str_drop (String.length (f_name f) + 1) (sf_name sf).

(** [dict(zip(names, vals))]: later pairs overwrite earlier ones. *)
Definition dict_of_pairs {V} (kvs : list (string * V)) : list (string * V) :=
  fold_left (fun d kv => dict_set d kv.1 kv.2) kvs [].

(** The body of the feature loop (lines 243-251) up to [data["input"]]. *)
Definition feature_input (c : chip) (f : feature) : res scalar :=
  let sfs := f_subfeatures f in
  let* vals := map_res (fun sf => get_value c (sf_number sf)) sfs in
  let names := map (sf_key f) sfs in
  let data := dict_of_pairs (zip names vals) in
  dict_get data "input".

Fixpoint chip_loop (c : chip) (fs : list feature) (chipdata : list (string * pyval))
    : res (list (string * pyval)) :=
  match fs with
  | [] => Ok chipdata
  | f :: fs' =>
      let* v := feature_input c f in
      chip_loop c fs' (dict_set chipdata (sanitizeName (f_label f)) (VScalar v))
  end.

Fixpoint coretemp_loop (cs : list chip) (rv : list (string * pyval))
    : res (list (string * pyval)) :=
  match cs with
  | [] => Ok rv
  | c :: cs' =>
      let* chipdata := chip_loop c (chip_features c) [] in
      coretemp_loop cs' (dict_set rv (chip_name c) (VDict chipdata))
  end.

(** [coretemp()] (lines 236-255) on the chips [cs] that
    [sensors.ChipIterator("coretemp-*")] yields. *)
Definition coretemp (cs : list chip) : res pyval :=
  let* rv := coretemp_loop cs [] in Ok (VDict rv).
End Coretemp.

(** Whether a feature has a subfeature whose key is [input]. *)
Definition has_input (f : feature) : bool :=
  existsb (fun sf => String.eqb (sf_key f sf) "input") (f_subfeatures f).

(** Whether a nested value can be flattened under [n] axis names: no
    non-empty list, namedtuple or dict sits at depth [n] or deeper. *)
Fixpoint fits (v : pyval) (n : nat) : bool :=
  match v with
  | VScalar _ => true
  | VList l =>
      match n with
      | O => match l with [] => true | _ :: _ => false end
      | S n' => forallb (fun x => fits x n') l
      end
  | VNamedTuple fs =>
      match n with
      | O => match fs with [] => true | _ :: _ => false end
      | S n' => forallb (fun kv => fits kv.2 n') fs
      end
  | VDict kv =>
      match n with
      | O => match kv with [] => true | _ :: _ => false end
      | S n' => forallb (fun kv => fits kv.2 n') kv
      end
  end.

(** ** Metric objects, the registry and the exporter state *)

(** The classes of the metric objects. *)
Inductive cls := CMetric | CCPUMetric | CSensorMetric | CGPUMetric.

(** The values the lifecycle attributes take: Python bools, [None], ints. *)
Inductive attr := ABool (b : bool) | ANone | AInt (z : Z).

(** The class attributes of lines 196-198 and 266-267.  The code never
    assigns them through the class: every [self._x = ...] creates or updates
    an attribute of the instance, which then shadows the class one. *)
Definition class_attrs (c : cls) : gmap string attr :=
  match c with
  | CSensorMetric =>
      <["_initAttempted" := ABool false]> (<["_initSuccess" := ANone]>
        (<["_initCount" := AInt 0]> ∅))
  | CGPUMetric =>
      <["_NVMLInitAttempted" := ABool false]> (<["_NVMLInitSuccess" := ABool false]> ∅)
  | _ => ∅
  end.

(** Truth value of an attribute in an [if]. *)
Definition truthy (a : attr) : bool :=
  match a with ABool b => b | ANone => false | AInt z => negb (Z.eqb z 0) end.

(** [a + d] on an attribute (a bool counts as 0 or 1). *)
Definition py_add (a : attr) (d : Z) : res attr :=
  match a with
  | AInt z => Ok (AInt (z + d)%Z)
  | ABool b => Ok (AInt ((if b then 1 else 0) + d)%Z)
  | ANone => Raise TypeError
  end.

(** [a == z] on an attribute. *)
Definition py_eq_int (a : attr) (z : Z) : bool :=
  match a with
  | AInt z' => Z.eqb z' z
  | ABool b => Z.eqb (if b then 1 else 0) z
  | ANone => false
  end.

(** The calls into the sensor and GPU libraries that start or tear down a
    backend session. *)
Inductive call := SensorsInit | SensorsCleanup | NvmlInit | NvmlShutdown.

(** Events of the response stream of a request handler. *)
Inductive wevent :=
| SendResponse (code : Z)
| SendHeader (k v : string)
| EndHeaders
| Write (s : string).

(** The newline character. *)
Definition nl : string := String (ascii_of_nat 10) EmptyString.

Section Exporter.
(** [World] is the host state the query functions read, together with
    whatever state they keep between calls. *)
Context {World : Type}.

(** The attributes [Metric.__init__] sets and nothing reassigns. *)
Record Metric := mkMetric {
  m_name : string;
  m_help : string;
  m_query : World -> res pyval * World;
  m_labels : list string;
  m_typ : string;
  m_fmt : scalar -> res scalar;
  m_unit : option string }.

(** [Metric.__init__]: the assertion on [typ], then the attributes. *)
Definition Metric_init (name help : string) (query : World -> res pyval * World)
    (labels : list string) (typ : string) (fmt : scalar -> res scalar)
    (unit : option string) : res Metric :=
  if bool_decide (typ ∈ ["gauge"; "summary"; "counter"; "histogram"])
  then Ok (mkMetric name help query labels typ fmt unit)
  else Raise AssertionError.

(** An object: its class, the attributes set by [__init__], and its
    instance [__dict__] for the attributes the lifecycle code assigns. *)
Record obj := mkObj { o_cls : cls; o_metric : Metric; o_dict : gmap string attr }.

(** Attribute lookup: the instance dict, then the class. *)
Definition getattr (o : obj) (k : string) : res attr :=
  match o_dict o !! k with
  | Some v => Ok v
  | None => match class_attrs (o_cls o) !! k with
            | Some v => Ok v
            | None => Raise (NameError k)
            end
  end.

(** The process state: the objects (an object reference is its index),
    the registry [ALL_METRICS], the calls made to the backend libraries,
    and the host. *)
Record state := mkState {
  heap : list obj;
  ALL_METRICS : list nat;
  backend_log : list call;
  world : World }.

Definition set_heap (h : list obj) (s : state) : state :=
  mkState h (ALL_METRICS s) (backend_log s) (world s).
Definition set_registry (r : list nat) (s : state) : state :=
  mkState (heap s) r (backend_log s) (world s).
Definition set_log (l : list call) (s : state) : state :=
  mkState (heap s) (ALL_METRICS s) l (world s).
Definition set_world (w : World) (s : state) : state :=
  mkState (heap s) (ALL_METRICS s) (backend_log s) w.

(** State and exceptions: a raising computation keeps the effects made
    before the exception. *)
Definition M (A : Type) : Type := state -> res A * state.

Definition m_ret {A} (a : A) : M A := fun s => (Ok a, s).
Definition m_bind {A B} (m : M A) (k : A -> M B) : M B := fun s =>
  match m s with
  | (Ok a, s') => k a s'
  | (Raise e, s') => (Raise e, s')
  end.
Definition m_raise {A} (e : exn) : M A := fun s => (Raise e, s).
Definition m_lift {A} (r : res A) : M A := fun s => (r, s).
End Exporter.

Arguments Metric : clear implicits.
Arguments obj : clear implicits.
Arguments state : clear implicits.
Arguments M : clear implicits.

Notation "'letM' x ':=' m 'in' k" := (m_bind m (fun x => k))
  (at level 200, x name, m at level 100, k at level 200).

(** ** Methods of the metric classes *)

Section Methods.
Context {World : Type}.
(** The outcomes of [sensors.init()] and of [nvmlInit()], and the effect
    of [psutil.cpu_times_percent()] whose result [CPUMetric.__enter__]
    discards.  The teardown calls [sensors.cleanup()] and
    [nvmlShutdown()] are recorded in [backend_log] and return normally. *)
Context (sensors_init : res unit) (nvmlInit : res unit)
        (cpu_times_percent : World -> World).

Local Abbreviation MW := (M World).

Definition m_obj (i : nat) : MW (obj World) := fun s =>
  match heap s !! i with
  | Some o => (Ok o, s)
  | None => (Raise (NameError "self"), s)
  end.

Definition m_getattr (i : nat) (k : string) : MW attr :=
  letM o := m_obj i in m_lift (getattr o k).

(** [self.k = v]: an update of the instance dict. *)
Definition m_setattr (i : nat) (k : string) (v : attr) : MW unit := fun s =>
  match heap s !! i with
  | Some o =>
      (Ok tt, set_heap (<[i := mkObj (o_cls o) (o_metric o) (<[k := v]> (o_dict o))]> (heap s)) s)
  | None => (Raise (NameError "self"), s)
  end.

Definition m_call (c : call) : MW unit := fun s =>
  (Ok tt, set_log (backend_log s ++ [c]) s).

Definition m_world {A} (f : World -> res A * World) : MW A := fun s =>
  let (r, w) := f (world s) in (r, set_world w s).

(** [Metric.__enter__] and [Metric.__exit__]. *)
Definition Metric_enter (i : nat) : MW nat := m_ret i.
Definition Metric_exit (i : nat) : MW unit := m_ret tt.

(** The HELP, TYPE and optional UNIT lines of [Metric.get]. *)
Definition header_lines (m : Metric World) : list string :=
  ["# HELP " +:+ m_name m +:+ " " +:+ m_help m;
   "# TYPE " +:+ m_name m +:+ " " +:+ m_typ m] ++
  match m_unit m with
  | Some u => ["# UNIT " +:+ m_name m +:+ " " +:+ u]
  | None => []
  end.

(** [Metric.get] (lines 65-71). *)
Definition Metric_get (i : nat) : MW (list string) :=
  letM o := m_obj i in
  let m := o_metric o in
  let rv := header_lines m in
  letM v := m_world (m_query m) in
  letM lines := m_lift (_tostr (m_name m) (Some (m_fmt m)) v (m_labels m)) in
  m_ret (rv ++ lines).

(** [CPUMetric.__enter__] (lines 105-108). *)
Definition CPUMetric_enter (i : nat) : MW nat :=
  letM _ := m_world (fun w => (Ok tt, cpu_times_percent w)) in
  Metric_enter i.

(** [SensorMetric.__enter__] (lines 203-215). *)
Definition SensorMetric_enter (i : nat) : MW nat :=
  letM _ := Metric_enter i in
  letM attempted := m_getattr i "_initAttempted" in
  letM _ := (if negb (truthy attempted) then
               letM _ := m_setattr i "_initAttempted" (ABool true) in
               letM _ := m_call SensorsInit in
               match sensors_init with
               | Ok _ => m_setattr i "_initSuccess" (ABool true)
               | Raise _ => m_setattr i "_initSuccess" (ABool false)
               end
             else m_ret tt) in
  letM success := m_getattr i "_initSuccess" in
  letM _ := (if truthy success then
               letM c := m_getattr i "_initCount" in
               letM c' := m_lift (py_add c 1) in
               m_setattr i "_initCount" c'
             else m_ret tt) in
  m_ret i.

(** [SensorMetric.__exit__] (lines 217-224). *)
Definition SensorMetric_exit (i : nat) : MW unit :=
  letM success := m_getattr i "_initSuccess" in
  letM _ := (if truthy success then
               letM c := m_getattr i "_initCount" in
               letM c' := m_lift (py_add c (-1)) in
               letM _ := m_setattr i "_initCount" c' in
               letM c'' := m_getattr i "_initCount" in
               if py_eq_int c'' 0 then m_call SensorsCleanup else m_ret tt
             else m_ret tt) in
  Metric_exit i.

(** The warning line of [SensorMetric.get]. *)
Definition sensor_warning (name : string) : string :=
  "# WARNING `" +:+ name +:+ "` not available; Error when loading lm-sensors".

(** [SensorMetric.get] (lines 226-230). *)
Definition SensorMetric_get (i : nat) : MW (list string) :=
  letM success := m_getattr i "_initSuccess" in
  if truthy success then Metric_get i
  else letM o := m_obj i in m_ret [sensor_warning (m_name (o_metric o))].

(** [GPUMetric.__enter__] (lines 272-282): only [NVMLError_LibraryNotFound]
    is caught. *)
Definition GPUMetric_enter (i : nat) : MW nat :=
  letM _ := Metric_enter i in
  letM attempted := m_getattr i "_NVMLInitAttempted" in
  letM _ := (if negb (truthy attempted) then
               letM _ := m_setattr i "_NVMLInitAttempted" (ABool true) in
               letM _ := m_call NvmlInit in
               match nvmlInit with
               | Ok _ => m_setattr i "_NVMLInitSuccess" (ABool true)
               | Raise NVMLError_LibraryNotFound => m_setattr i "_NVMLInitSuccess" (ABool false)
               | Raise e => m_raise e
               end
             else m_ret tt) in
  m_ret i.

(** [GPUMetric.__exit__] (lines 284-287). *)
Definition GPUMetric_exit (i : nat) : MW unit :=
  letM success := m_getattr i "_NVMLInitSuccess" in
  letM _ := (if truthy success then m_call NvmlShutdown else m_ret tt) in
  Metric_exit i.

(** The warning line of [GPUMetric.get]. *)
Definition gpu_warning (name : string) : string :=
  "# WARNING `" +:+ name +:+ "` not available; NVML not found.".

(** [GPUMetric.get] (lines 289-293). *)
Definition GPUMetric_get (i : nat) : MW (list string) :=
  letM success := m_getattr i "_NVMLInitSuccess" in
  if truthy success then Metric_get i
  else letM o := m_obj i in m_ret [gpu_warning (m_name (o_metric o))].

(** Method dispatch on the class of the object. *)
Definition obj_enter (i : nat) : MW nat :=
  letM o := m_obj i in
  match o_cls o with
  | CMetric => Metric_enter i
  | CCPUMetric => CPUMetric_enter i
  | CSensorMetric => SensorMetric_enter i
  | CGPUMetric => GPUMetric_enter i
  end.

Definition obj_exit (i : nat) : MW unit :=
  letM o := m_obj i in
  match o_cls o with
  | CMetric | CCPUMetric => Metric_exit i
  | CSensorMetric => SensorMetric_exit i
  | CGPUMetric => GPUMetric_exit i
  end.

Definition obj_get (i : nat) : MW (list string) :=
  letM o := m_obj i in
  match o_cls o with
  | CMetric | CCPUMetric => Metric_get i
  | CSensorMetric => SensorMetric_get i
  | CGPUMetric => GPUMetric_get i
  end.

(** ** Construction and registration *)

(** [C(...)] for a metric class [C]: a new object, then [__init__]. *)
Definition new_metric (c : cls) (m : res (Metric World)) : MW nat :=
  letM m := m_lift m in
  fun s => (Ok (length (heap s)), set_heap (heap s ++ [mkObj c m ∅]) s).

(** [Metric.register] (lines 73-75): [ALL_METRICS.append(self)]. *)
Definition register (i : nat) : MW unit := fun s =>
  (Ok tt, set_registry (ALL_METRICS s ++ [i]) s).

(** ** The request handler and the entry point *)

(** The loop of [StatsPrintHandler.do_GET] (lines 409-411), writing on
    the response stream [out]. *)
Fixpoint write_metrics (ms : list nat) (out : list wevent) (s : state World)
    : res unit * list wevent * state World :=
  match ms with
  | [] => (Ok tt, out, s)
  | i :: ms' =>
      match obj_get i s with
      | (Ok ls, s') => write_metrics ms' (out ++ [Write (String.concat nl ls); Write nl]) s'
      | (Raise e, s') => (Raise e, out, s')
      end
  end.

(** The status line and headers of [do_GET] (lines 405-407). *)
Definition response_head : list wevent :=
  [SendResponse 200; SendHeader "Content-type" "text/plain"; EndHeaders].

(** [StatsPrintHandler.do_GET] on the list [metrics]: what is written on
    the response stream (the body as text, [encode()] being the identity
    on it) and how the handler ends. *)
Definition do_GET (metrics : list nat) (s : state World)
    : res unit * list wevent * state World :=
  write_metrics metrics response_head s.

(** [ExitStack] unwinding after the exception [e]: the exits of the
    contexts on the stack (most recent first); an exception raised by an
    exit replaces the pending one. *)
Fixpoint unwind {A} (stack : list nat) (e : exn) : MW A :=
  match stack with
  | [] => m_raise e
  | i :: rest => fun s =>
      match obj_exit i s with
      | (Ok _, s') => unwind rest e s'
      | (Raise e', s') => unwind rest e' s'
      end
  end.

(** [ExitStack.__exit__] without a pending exception. *)
Fixpoint close_stack (stack : list nat) : MW unit :=
  match stack with
  | [] => m_ret tt
  | i :: rest => fun s =>
      match obj_exit i s with
      | (Ok _, s') => close_stack rest s'
      | (Raise e, s') => unwind rest e s'
      end
  end.

(** The comprehension of line 417: [metric_stack.enter_context(m)] for
    each [m] in order; [acc] is the list built so far (reversed), [stack]
    the contexts entered (most recent first). *)
Fixpoint enter_each (ms stack acc : list nat) : MW (list nat * list nat) :=
  match ms with
  | [] => m_ret (rev acc, stack)
  | i :: ms' => fun s =>
      match obj_enter i s with
      | (Ok r, s') => enter_each ms' (i :: stack) (r :: acc) s'
      | (Raise e, s') => unwind stack e s'
      end
  end.

(** [metrics] of [__main__] and the exit stack holding every entered
    metric. *)
Definition main_open : MW (list nat * list nat) := fun s =>
  enter_each (ALL_METRICS s) [] [] s.
End Methods.

(** ** Observations and concrete programs *)

(** Entering ([true]) or exiting ([false]) the object [i]. *)
Definition scope_op {World} (sensors_init nvmlInit : res unit) (cpu : World -> World)
    (op : bool * nat) : M World unit :=
  if op.1 then letM _ := obj_enter sensors_init nvmlInit cpu op.2 in m_ret tt
  else obj_exit op.2.

(** A sequence of enters and exits run in one go. *)
Fixpoint scope_seq {World} (sensors_init nvmlInit : res unit) (cpu : World -> World)
    (ops : list (bool * nat)) : M World unit :=
  match ops with
  | [] => m_ret tt
  | op :: ops' =>
      letM _ := scope_op sensors_init nvmlInit cpu op in
      scope_seq sensors_init nvmlInit cpu ops'
  end.

(** [n] enters of the object [i] followed by [n] exits. *)
Definition nested_scopes (n i : nat) : list (bool * nat) :=
  repeat (true, i) n ++ repeat (false, i) n.

(** A [SensorMetric] object whose [sensors.init()] succeeded, its counter
    [_initCount] at [c]. *)
Definition sensor_live {World} (o : obj World) (c : Z) : Prop :=
  o_cls o = CSensorMetric /\ getattr o "_initAttempted" = Ok (ABool true) /\
  getattr o "_initSuccess" = Ok (ABool true) /\ getattr o "_initCount" = Ok (AInt c).

(** A sequence of enters and exits: the outcome of each step with the
    backend calls made so far, up to the first exception. *)
Fixpoint run_scopes {World} (sensors_init nvmlInit : res unit) (cpu : World -> World)
    (ops : list (bool * nat)) (s : state World) : list (res unit * list call) :=
  match ops with
  | [] => []
  | op :: ops' =>
      let (r, s') := scope_op sensors_init nvmlInit cpu op s in
      (r, backend_log s') ::
      match r with
      | Ok _ => run_scopes sensors_init nvmlInit cpu ops' s'
      | Raise _ => []
      end
  end.

(** Whether [get] of an object reaches [Metric.get], hence its query. *)
Definition get_runs_query {World} (o : obj World) : bool :=
  match o_cls o with
  | CMetric | CCPUMetric => true
  | CSensorMetric =>
      match getattr o "_initSuccess" with Ok a => truthy a | Raise _ => false end
  | CGPUMetric =>
      match getattr o "_NVMLInitSuccess" with Ok a => truthy a | Raise _ => false end
  end.

(** An object of a session-bound class whose initialisation was attempted
    and did not succeed, and the warning line its [get] returns. *)
Definition init_failed {World} (o : obj World) : Prop :=
  match o_cls o with
  | CSensorMetric =>
      (exists a, getattr o "_initAttempted" = Ok a /\ truthy a = true) /\
      (exists a, getattr o "_initSuccess" = Ok a /\ truthy a = false)
  | CGPUMetric =>
      (exists a, getattr o "_NVMLInitAttempted" = Ok a /\ truthy a = true) /\
      (exists a, getattr o "_NVMLInitSuccess" = Ok a /\ truthy a = false)
  | _ => False
  end.

Definition warning_of {World} (o : obj World) : string :=
  match o_cls o with
  | CGPUMetric => gpu_warning (m_name (o_metric o))
  | _ => sensor_warning (m_name (o_metric o))
  end.

(** The response body as text. *)
Fixpoint body_text (evs : list wevent) : string :=
  match evs with
  | [] => ""
  | Write t :: evs' => t +:+ body_text evs'
  | _ :: evs' => body_text evs'
  end.

(** Whether a text has an empty line, i.e. two newlines in a row. *)
Fixpoint has_blank_line (t : string) : bool :=
  match t with
  | String c (String d _ as t') =>
      (bool_decide (c = ascii_of_nat 10) && bool_decide (d = ascii_of_nat 10)) || has_blank_line t'
  | _ => false
  end.

(** The writes of one rendered block in [do_GET]. *)
Definition block_writes (b : list string) : list wevent := [Write (String.concat nl b); Write nl].

(** The renders of the metrics [ms] in order, each returning its lines. *)
Inductive gets_ok {World} : list nat -> state World -> list (list string) -> state World -> Prop :=
| gets_ok_nil s : gets_ok [] s [] s
| gets_ok_cons i ms s s1 s2 b bs :
    obj_get i s = (Ok b, s1) -> gets_ok ms s1 bs s2 -> gets_ok (i :: ms) s (b :: bs) s2.

(** A query that always returns [r] on a host without state. *)
Definition const_query (r : res pyval) : unit -> res pyval * unit := fun w => (r, w).

Definition gauge (name : string) (r : res pyval) : Metric unit :=
  mkMetric name "help" (const_query r) [] "gauge" fmt_id None.

Definition fresh (c : cls) (m : Metric unit) : obj unit := mkObj c m ∅.

(** Objects registered in order, no backend call made yet. *)
Definition init_state (objs : list (obj unit)) : state unit :=
  mkState objs (seq 0 (length objs)) [] tt.

Definition empty_state : state unit := mkState [] [] [] tt.

(** Two registrations, as the module does them at import time:
    [Metric(name, ...).register()]. *)
Definition register_twice (n1 n2 : string) : M unit unit :=
  letM i := new_metric CMetric (Metric_init n1 "help" (const_query (Ok (VScalar (SInt 1)))) [] "gauge" fmt_id None) in
  letM _ := register i in
  letM j := new_metric CMetric (Metric_init n2 "help" (const_query (Ok (VScalar (SInt 2)))) [] "gauge" fmt_id None) in
  register j.

(** The metric names in the registry. *)
Definition registry_names {World} (s : state World) : list (option string) :=
  (fun i => (fun o => m_name (o_metric o)) <$> heap s !! i) <$> ALL_METRICS s.

(** A computation that leaves the registry as it is. *)
Definition keeps_registry {World A} (m : M World A) : Prop :=
  forall s r s', m s = (r, s') -> ALL_METRICS s' = ALL_METRICS s.

(** A computation that, when it returns, returns [v]. *)
Definition returns_value {World A} (m : M World A) (v : A) : Prop :=
  forall s r s', m s = (Ok r, s') -> r = v.

(** Three registered metrics, the query of the second one raising. *)
Definition three_metrics : state unit :=
  init_state [fresh CMetric (gauge "a" (Ok (VScalar (SInt 2))));
              fresh CMetric (gauge "b" (Raise (QueryError "boom")));
              fresh CMetric (gauge "c" (Ok (VScalar (SInt 1))))].

(** Two registered metrics whose queries return. *)
Definition two_metrics : state unit :=
  init_state [fresh CMetric (gauge "a" (Ok (VScalar (SInt 2))));
              fresh CMetric (gauge "b" (Ok (VScalar (SInt 1))))].

(** A [SensorMetric] after a failed [sensors.init()]. *)
Definition failed_sensor : obj unit :=
  mkObj CSensorMetric (gauge "coretemp" (Ok (VDict [])))
    (<["_initSuccess" := ABool false]> (<["_initAttempted" := ABool true]> ∅)).

(** ** Proofs *)

(** Induction over nested values. *)
Definition pyval_ind' (P : pyval -> Prop)
  (HS : forall s, P (VScalar s))
  (HL : forall l, Forall P l -> P (VList l))
  (HN : forall fs, Forall (fun kv => P kv.2) fs -> P (VNamedTuple fs))
  (HD : forall kv, Forall (fun kv => P kv.2) kv -> P (VDict kv)) :
  forall v, P v :=
  fix go v :=
    match v with
    | VScalar s => HS s
    | VList l => HL l ((fix gol l := match l return Forall P l with
                         | [] => Forall_nil_2 _
                         | x :: l' => Forall_cons_2 _ _ _ (go x) (gol l') end) l)
    | VNamedTuple fs => HN fs ((fix gof fs := match fs return Forall (fun kv => P kv.2) fs with
                         | [] => Forall_nil_2 _
                         | x :: l' => Forall_cons_2 _ _ _ (go x.2) (gof l') end) fs)
    | VDict kv => HD kv ((fix gof fs := match fs return Forall (fun kv => P kv.2) fs with
                         | [] => Forall_nil_2 _
                         | x :: l' => Forall_cons_2 _ _ _ (go x.2) (gof l') end) kv)
    end.

Lemma res_bind_ok {A B} (m : res A) (k : A -> res B) (b : B) :
  res_bind m k = Ok b -> exists a, m = Ok a /\ k a = Ok b.
Proof. destruct m; simpl; [eauto | discriminate]. Qed.

Lemma extend_each_ok {A} (f : nat -> A -> res (list string))
    (g : nat -> A -> list (list string * scalar))
    (R : string -> list string * scalar -> Prop) (l : list A) :
  Forall (fun x => forall j r, f j x = Ok r -> Forall2 R r (g j x)) l ->
  forall i ls, extend_each f i l = Ok ls -> Forall2 R ls (flat_each g i l).
Proof.
  induction 1 as [|x l Hx Hl IH]; intros i ls Hrun; simpl in *.
  - injection Hrun as <-. constructor.
  - apply res_bind_ok in Hrun as (r & Hr & Hrun).
    apply res_bind_ok in Hrun as (rest & Hrest & Hrun).
    injection Hrun as <-. apply Forall2_app; eauto.
Qed.

Lemma label_ok axes k p : label axes k = Ok p ->
  exists a axes', axes = a :: axes' /\ p = mk_label a k.
Proof. destruct axes; simpl; [discriminate|]. intros [= <-]. eauto. Qed.

Lemma leaf_line_app name parts p rest s :
  leaf_line name ((parts ++ [p]) ++ rest) s = leaf_line name (parts ++ p :: rest) s.
Proof. by rewrite <- app_assoc. Qed.

(** The generalised shape of [_tostr_inner]: each line is the line of one
    scalar of [paths v], carrying one label per level of its key path. *)
Lemma tostr_inner_shape name fmt v : forall parts axes ls,
  _tostr_inner name fmt parts v axes = Ok ls ->
  Forall2 (fun line p => exists s',
             length p.1 <= length axes /\
             apply_fmt fmt p.2 = Ok s' /\
             line = leaf_line name (parts ++ zip_with mk_label axes p.1) s')
          ls (paths v).
Proof.
  induction v as [s|l IH|fs IH|kv IH] using pyval_ind'; intros parts axes ls Hrun; simpl in *.
  - apply res_bind_ok in Hrun as (s' & Hs & [= <-]).
    constructor; [|constructor]. exists s'. simpl. rewrite zip_with_nil_r, app_nil_r. split; [lia|auto].
  - eapply extend_each_ok; [|exact Hrun].
    eapply Forall_impl; [exact IH|]. intros x IHx j r Hr.
    apply res_bind_ok in Hr as (p & Hp & Hr).
    apply label_ok in Hp as (a & axes' & -> & ->).
    apply IHx in Hr. apply Forall2_fmap_r.
    eapply Forall2_impl; [exact Hr|]. intros line [path s] (s' & Hlen & Hf & ->).
    exists s'. simpl in *. split; [lia|]. split; [done|]. apply leaf_line_app.
  - eapply extend_each_ok; [|exact Hrun].
    eapply Forall_impl; [exact IH|]. intros [k x] IHx j r Hr.
    apply res_bind_ok in Hr as (p & Hp & Hr).
    apply label_ok in Hp as (a & axes' & -> & ->).
    apply IHx in Hr. apply Forall2_fmap_r.
    eapply Forall2_impl; [exact Hr|]. intros line [path s] (s' & Hlen & Hf & ->).
    exists s'. simpl in *. split; [lia|]. split; [done|]. apply leaf_line_app.
  - eapply extend_each_ok; [|exact Hrun].
    eapply Forall_impl; [exact IH|]. intros [k x] IHx j r Hr.
    apply res_bind_ok in Hr as (p & Hp & Hr).
    apply label_ok in Hp as (a & axes' & -> & ->).
    apply IHx in Hr. apply Forall2_fmap_r.
    eapply Forall2_impl; [exact Hr|]. intros line [path s] (s' & Hlen & Hf & ->).
    exists s'. simpl in *. split; [lia|]. split; [done|]. apply leaf_line_app.
Qed.

(** C4: flattening a scalar under an empty axis list yields exactly one
    line, without a label block; and for every axis list and every value,
    the lines returned are, in order, those of the scalars of the value,
    each carrying one label per nesting level crossed to reach it (the
    length of its key path), never more than there are axis names. *)
Theorem tostr_labels_match_depth (name : string) (fmt : option (scalar -> res scalar)) :
  (forall s s', apply_fmt fmt s = Ok s' ->
     _tostr name fmt (VScalar s) [] = Ok [name +:+ " " +:+ str_scalar s']) /\
  (forall (v : pyval) (axes : list string) (ls : list string),
     _tostr name fmt v axes = Ok ls ->
     Forall2 (fun line p => exists labs s',
                line = leaf_line name labs s' /\
                labs = zip_with mk_label axes p.1 /\
                length labs = length p.1 /\
                length p.1 <= length axes)
             ls (paths v)).
Proof.
  split.
  - intros s s' Hs. unfold _tostr. simpl. by rewrite Hs.
  - intros v axes ls Hrun. apply tostr_inner_shape in Hrun.
    eapply Forall2_impl; [exact Hrun|]. intros line [path s] (s' & Hlen & _ & ->).
    exists (zip_with mk_label axes path), s'. simpl in *.
    rewrite length_zip_with. repeat split; lia.
Qed.

Lemma tostr_labels_match_depth_witness :
  _tostr "load" None (VScalar (SInt 3)) [] = Ok ["load 3"] /\
  Forall2 (fun line p => exists labs s',
             line = leaf_line "m" labs s' /\
             labs = zip_with mk_label ["id"; "type"] p.1 /\
             length labs = length p.1 /\
             length p.1 <= length ["id"; "type"])
          ["m{id=" +:+ dq +:+ "0" +:+ dq +:+ "} 7"]
          (paths (VList [VScalar (SInt 7)])).
Proof.
  split.
  - apply (proj1 (tostr_labels_match_depth "load" None) (SInt 3) (SInt 3)). reflexivity.
  - apply (proj2 (tostr_labels_match_depth "m" None) (VList [VScalar (SInt 7)]) ["id"; "type"]).
    vm_compute. reflexivity.
Defined.

(** C9: the record [{user: 10, system: 5}] under axes [type], name [cpu]
    and format [x/100] gives the lines [cpu{type=user} 0.1] and
    [cpu{type=system} 0.05] (label values quoted) in field order; the list
    [[{a: 1}, {a: 2}]] under axes [id, field] and name [m] gives
    [m{id=0,field=a} 1] and [m{id=1,field=a} 2] in that order. *)
Theorem cpu_record_and_sequence_lines :
  _tostr "cpu" (Some div100)
    (VDict [("user", VScalar (SInt 10)); ("system", VScalar (SInt 5))]) ["type"]
  = Ok ["cpu{type=" +:+ dq +:+ "user" +:+ dq +:+ "} 0.1";
        "cpu{type=" +:+ dq +:+ "system" +:+ dq +:+ "} 0.05"] /\
  _tostr "m" (Some fmt_id)
    (VList [VDict [("a", VScalar (SInt 1))]; VDict [("a", VScalar (SInt 2))]]) ["id"; "field"]
  = Ok ["m{id=" +:+ dq +:+ "0" +:+ dq +:+ ",field=" +:+ dq +:+ "a" +:+ dq +:+ "} 1";
        "m{id=" +:+ dq +:+ "1" +:+ dq +:+ ",field=" +:+ dq +:+ "a" +:+ dq +:+ "} 2"].
Proof. split; vm_compute; reflexivity. Qed.

(** C8 (counterexample): an empty list reached with no axis left is
    flattened to no line at all, without any error; a non-empty one raises
    a bare [IndexError], which names no descriptor. *)
Lemma exhausted_axes_composite_not_rejected :
  _tostr "m" (Some fmt_id) (VList []) [] = Ok [] /\
  _tostr "m" (Some fmt_id) (VList [VScalar (SInt 1)]) [] = Raise IndexError.
Proof. split; reflexivity. Qed.

(** C8 (amended): a list, namedtuple or dict reached when the axis list is
    exhausted makes flattening raise [IndexError] (from [axes[0]]) if it has
    an element, and yields no line if it is empty; in neither case is the
    composite value written as a data line. *)
Theorem exhausted_axes_composite (name : string) (fmt : option (scalar -> res scalar))
    (parts : list string) :
  (forall l, _tostr_inner name fmt parts (VList l) [] =
             match l with [] => Ok [] | _ => Raise IndexError end) /\
  (forall fs, _tostr_inner name fmt parts (VNamedTuple fs) [] =
             match fs with [] => Ok [] | _ => Raise IndexError end) /\
  (forall kv, _tostr_inner name fmt parts (VDict kv) [] =
             match kv with [] => Ok [] | _ => Raise IndexError end).
Proof. repeat split; intros []; reflexivity. Qed.

(** C2 (code bug): with [nvmlInit] succeeding, [enter(); enter(); exit();
    exit()] on a [GPUMetric] calls [nvmlShutdown] on each exit, the first
    time on the first exit.  With two [SensorMetric] objects the counters
    are per object (each [self._initCount += 1] writes the instance), so
    [sensors.init] and [sensors.cleanup] each run twice and the first
    cleanup comes on the first exit; a single [SensorMetric] entered twice
    does clean up once, on the second exit. *)
Theorem backend_teardown_enter_enter_exit_exit :
  run_scopes (World:=unit) (Ok tt) (Ok tt) id [(true,0); (true,0); (false,0); (false,0)]
    (init_state [fresh CGPUMetric (gauge "gpu_temp" (Ok (VList [])))])
  = [(Ok tt, [NvmlInit]); (Ok tt, [NvmlInit]);
     (Ok tt, [NvmlInit; NvmlShutdown]);
     (Ok tt, [NvmlInit; NvmlShutdown; NvmlShutdown])] /\
  run_scopes (World:=unit) (Ok tt) (Ok tt) id [(true,0); (true,1); (false,0); (false,1)]
    (init_state [fresh CSensorMetric (gauge "coretemp" (Ok (VDict [])));
                 fresh CSensorMetric (gauge "coretemp2" (Ok (VDict [])))])
  = [(Ok tt, [SensorsInit]); (Ok tt, [SensorsInit; SensorsInit]);
     (Ok tt, [SensorsInit; SensorsInit; SensorsCleanup]);
     (Ok tt, [SensorsInit; SensorsInit; SensorsCleanup; SensorsCleanup])] /\
  run_scopes (World:=unit) (Ok tt) (Ok tt) id [(true,0); (true,0); (false,0); (false,0)]
    (init_state [fresh CSensorMetric (gauge "coretemp" (Ok (VDict [])))])
  = [(Ok tt, [SensorsInit]); (Ok tt, [SensorsInit]); (Ok tt, [SensorsInit]);
     (Ok tt, [SensorsInit; SensorsCleanup])].
Proof. repeat split; vm_compute; reflexivity. Qed.

(** C6 (code bug): the write ratio is guarded by the read count delta.
    From a fresh sizer, a poll with 2 new reads and no new write divides
    the write bytes delta by 0; a poll with 2 new writes and no new read
    omits the write ratio.  The polls (bytes 0, 100, 100; counts 0, 2, 2)
    fed to both directions give no ratio, then 50 for each, then none. *)
Theorem sizer_write_ratio_guarded_by_read_count :
  fst (DiskRequestSizer_call sizer_init (mk_disk_io 100 2 0 0)) = Raise ZeroDivisionError /\
  fst (DiskRequestSizer_call sizer_init (mk_disk_io 0 0 100 2)) = Ok [] /\
  sizer_polls sizer_init [mk_disk_io 0 0 0 0; mk_disk_io 100 2 100 2; mk_disk_io 100 2 100 2]
  = [Ok []; Ok [("read", 50%Q); ("write", 50%Q)]; Ok []].
Proof. repeat split; vm_compute; reflexivity. Qed.

(** C1 (counterexample): the query of the first of two metrics raises;
    [do_GET] writes no warning line and nothing of the second metric, and
    ends with the query's exception. *)
Lemma query_error_not_isolated :
  let '(r, out, _) :=
    do_GET [0; 1] (init_state [fresh CMetric (gauge "a" (Raise (QueryError "boom")));
                               fresh CMetric (gauge "b" (Ok (VScalar (SInt 1))))]) in
  r = Raise (QueryError "boom") /\ out = response_head.
Proof. vm_compute. split; reflexivity. Qed.

(** C10 (counterexample): two metrics rendered in one response are not
    separated by an empty line. *)
Lemma no_blank_line_between_blocks :
  let '(r, out, _) :=
    do_GET [0; 1] (init_state [fresh CMetric (gauge "a" (Ok (VScalar (SInt 2))));
                               fresh CMetric (gauge "b" (Ok (VScalar (SInt 1))))]) in
  r = Ok tt /\ has_blank_line (body_text out) = false.
Proof. vm_compute. split; reflexivity. Qed.

(** C7 (counterexample): registering a second metric named [load] is
    accepted and the registry then holds the name twice. *)
Lemma duplicate_name_registered :
  let (r, s) := register_twice "load" "load" empty_state in
  r = Ok tt /\ registry_names s = [Some "load"; Some "load"].
Proof. vm_compute. split; reflexivity. Qed.

(** C5 (counterexample): a [GPUMetric] whose [nvmlInit] fails with an NVML
    error other than library-not-found: entering it raises that error. *)
Lemma gpu_init_other_error_propagates :
  fst (obj_enter (World:=unit) (Ok tt) (Raise (NVMLError 9)) id 0
         (init_state [fresh CGPUMetric (gauge "gpu_mem" (Ok (VList [])))]))
  = Raise (NVMLError 9).
Proof. vm_compute. reflexivity. Qed.

(** C3 (counterexample): on the first call, an NVML error raised by the
    device count, outside the [try], leaves [GPUMeta.__call__]. *)
Lemma gpumeta_enumeration_error_propagates :
  fst (GPUMeta_call (handle:=nat) (Raise (NVMLError 3)) (fun i => Ok i) (fun _ => Ok "GPU-0")
         (fun _ => Ok (VScalar (SInt 1))) (mk_gpumeta_state false []))
  = Raise (NVMLError 3).
Proof. reflexivity. Qed.

(** *** Reasoning about the state monad *)

Section MonadFacts.
Context {World : Type}.

Lemma bind_ok {A B} (m : M World A) (k : A -> M World B) s a s' :
  m s = (Ok a, s') -> m_bind m k s = k a s'.
Proof. intros H. unfold m_bind. by rewrite H. Qed.

Lemma bind_raise {A B} (m : M World A) (k : A -> M World B) s e s' :
  m s = (Raise e, s') -> m_bind m k s = (Raise e, s').
Proof. intros H. unfold m_bind. by rewrite H. Qed.

Lemma m_obj_ok (s : state World) i o :
  heap s !! i = Some o -> m_obj i s = (Ok o, s).
Proof. intros H. unfold m_obj. by rewrite H. Qed.

Lemma m_getattr_ok (s : state World) i o k r :
  heap s !! i = Some o -> getattr o k = r -> m_getattr i k s = (r, s).
Proof. intros H <-. unfold m_getattr. by erewrite bind_ok by (apply m_obj_ok; eauto). Qed.

Lemma m_setattr_ok (s : state World) i o k v :
  heap s !! i = Some o ->
  m_setattr i k v s =
    (Ok tt, set_heap (<[i := mkObj (o_cls o) (o_metric o) (<[k := v]> (o_dict o))]> (heap s)) s).
Proof. intros H. unfold m_setattr. by rewrite H. Qed.

Lemma lookup_set_heap_insert (s : state World) i o o' :
  heap s !! i = Some o -> heap (set_heap (<[i := o']> (heap s)) s) !! i = Some o'.
Proof. intros H. simpl. apply list_lookup_insert_eq. by eapply lookup_lt_Some. Qed.
Lemma bind_assoc_at {A B C} (m : M World A) (k1 : A -> M World B) (k2 : B -> M World C) s :
  m_bind (m_bind m k1) k2 s = m_bind m (fun a => m_bind (k1 a) k2) s.
Proof. unfold m_bind. by destruct (m s) as [[a|e] s']. Qed.
End MonadFacts.

(** One step of a method: a bind whose first computation is evaluated by
    one of the lemmas above. *)
Ltac heap_lookup :=
  first
    [ eassumption
    | simpl; rewrite list_lookup_insert_eq;
      [ reflexivity | rewrite ?length_insert; eapply lookup_lt_Some; eassumption ] ].

Ltac step :=
  repeat rewrite bind_assoc_at;
  first
    [ erewrite bind_ok by (eapply m_getattr_ok; [heap_lookup | first [eassumption | reflexivity]])
    | erewrite bind_ok by (eapply m_obj_ok; heap_lookup)
    | erewrite bind_ok by (eapply m_setattr_ok; heap_lookup)
    | erewrite bind_ok by reflexivity ];
  cbv beta.

Lemma failed_sensor_attrs {World} (o : obj World) :
  o_cls o = CSensorMetric -> init_failed o ->
  exists a b, getattr o "_initAttempted" = Ok a /\ truthy a = true /\
              getattr o "_initSuccess" = Ok b /\ truthy b = false.
Proof. unfold init_failed. intros -> [[a [Ha Ta]] [b [Hb Tb]]]. eauto 7. Qed.

Lemma failed_gpu_attrs {World} (o : obj World) :
  o_cls o = CGPUMetric -> init_failed o ->
  exists a b, getattr o "_NVMLInitAttempted" = Ok a /\ truthy a = true /\
              getattr o "_NVMLInitSuccess" = Ok b /\ truthy b = false.
Proof. unfold init_failed. intros -> [[a [Ha Ta]] [b [Hb Tb]]]. eauto 7. Qed.

(** An object whose session initialisation failed: [get] returns its
    warning line and leaves the state (the host included) untouched, so the
    query is not run; [__enter__] and [__exit__] do nothing. *)
Lemma failed_init_noop {World} (si nv : res unit) (cpu : World -> World)
    (s : state World) (i : nat) (o : obj World) :
  heap s !! i = Some o -> init_failed o ->
  obj_get i s = (Ok [warning_of o], s) /\
  obj_enter si nv cpu i s = (Ok i, s) /\
  obj_exit i s = (Ok tt, s).
Proof.
  intros Hi Hf. unfold obj_get, obj_enter, obj_exit.
  destruct (o_cls o) eqn:Hc.
  - unfold init_failed in Hf. rewrite Hc in Hf. contradiction.
  - unfold init_failed in Hf. rewrite Hc in Hf. contradiction.
  - destruct (failed_sensor_attrs o Hc Hf) as (a & b & Ha & Ta & Hb & Tb).
    unfold warning_of. rewrite Hc.
    repeat split; step; rewrite Hc.
    + unfold SensorMetric_get. step. rewrite Tb. step. reflexivity.
    + unfold SensorMetric_enter, Metric_enter. step. step. rewrite Ta. simpl.
      step. step. rewrite Tb. reflexivity.
    + unfold SensorMetric_exit. step. rewrite Tb. step. reflexivity.
  - destruct (failed_gpu_attrs o Hc Hf) as (a & b & Ha & Ta & Hb & Tb).
    unfold warning_of. rewrite Hc.
    repeat split; step; rewrite Hc.
    + unfold GPUMetric_get. step. rewrite Tb. step. reflexivity.
    + unfold GPUMetric_enter, Metric_enter. step. step. rewrite Ta. simpl.
      step. reflexivity.
    + unfold GPUMetric_exit. step. rewrite Tb. step. reflexivity.
Qed.

(** The first [__enter__] of a [SensorMetric] whose [sensors.init()]
    raises: it returns normally, having called [sensors.init] once, and
    leaves the object in the failed state. *)
Lemma sensor_first_enter_init_error {World} e nv (cpu : World -> World)
    (s : state World) i o :
  heap s !! i = Some o -> o_cls o = CSensorMetric -> o_dict o = ∅ ->
  exists s' o', obj_enter (Raise e) nv cpu i s = (Ok i, s') /\
    backend_log s' = backend_log s ++ [SensorsInit] /\
    heap s' !! i = Some o' /\ init_failed o'.
Proof.
  intros Hi Hc Hd.
  assert (Ha : getattr o "_initAttempted" = Ok (ABool false))
    by (unfold getattr; rewrite Hd, Hc; reflexivity).
  unfold obj_enter. step. rewrite Hc. unfold SensorMetric_enter, Metric_enter.
  step. step. simpl negb. cbv iota.
  step. step. step. rewrite Hc, Hd. step. simpl.
  eexists _, _. split; [reflexivity|]. split; [reflexivity|].
  split; [heap_lookup|]. unfold init_failed. simpl.
  split; eexists; split; reflexivity.
Qed.

(** The first [__enter__] of a [GPUMetric] whose [nvmlInit()] raises
    [NVMLError_LibraryNotFound]: it returns normally, having called
    [nvmlInit] once, and leaves the object in the failed state. *)
Lemma gpu_first_enter_library_not_found {World} si (cpu : World -> World)
    (s : state World) i o :
  heap s !! i = Some o -> o_cls o = CGPUMetric -> o_dict o = ∅ ->
  exists s' o', obj_enter si (Raise NVMLError_LibraryNotFound) cpu i s = (Ok i, s') /\
    backend_log s' = backend_log s ++ [NvmlInit] /\
    heap s' !! i = Some o' /\ init_failed o'.
Proof.
  intros Hi Hc Hd.
  assert (Ha : getattr o "_NVMLInitAttempted" = Ok (ABool false))
    by (unfold getattr; rewrite Hd, Hc; reflexivity).
  unfold obj_enter. step. rewrite Hc. unfold GPUMetric_enter, Metric_enter.
  step. step. simpl negb. cbv iota.
  step. step. step. rewrite Hc, Hd. simpl.
  eexists _, _. split; [reflexivity|]. split; [reflexivity|].
  split; [heap_lookup|]. unfold init_failed. simpl.
  split; eexists; split; reflexivity.
Qed.

(** The first [__enter__] of a [GPUMetric] whose [nvmlInit()] raises any
    other error: the [except NVMLError_LibraryNotFound] clause does not
    match, and the error leaves [__enter__] after the call to [nvmlInit]. *)
Lemma gpu_first_enter_other_error {World} si e (cpu : World -> World)
    (s : state World) i o :
  heap s !! i = Some o -> o_cls o = CGPUMetric -> o_dict o = ∅ ->
  e <> NVMLError_LibraryNotFound ->
  exists s', obj_enter si (Raise e) cpu i s = (Raise e, s') /\
    backend_log s' = backend_log s ++ [NvmlInit].
Proof.
  intros Hi Hc Hd He.
  assert (Ha : getattr o "_NVMLInitAttempted" = Ok (ABool false))
    by (unfold getattr; rewrite Hd, Hc; reflexivity).
  unfold obj_enter. step. rewrite Hc. unfold GPUMetric_enter, Metric_enter.
  step. step. simpl negb. cbv iota.
  step. step.
  destruct e; try congruence; unfold m_bind, m_raise; simpl;
    (eexists; split; reflexivity).
Qed.

(** C5 (amended): for an object of a session-bound class whose
    initialisation failed, [get] returns exactly its warning line, which
    names the metric, without running the query or changing any state, and
    [__enter__] and [__exit__] change nothing (no teardown call).  The
    initialisation attempt itself returns normally for [SensorMetric]
    whatever [sensors.init()] raises, and for [GPUMetric] when [nvmlInit()]
    raises [NVMLError_LibraryNotFound]; any other error of [nvmlInit()]
    propagates out of the first [__enter__]. *)
Theorem failed_backend_degrades {World} (cpu : World -> World) :
  (forall (si nv : res unit) (s : state World) (i : nat) (o : obj World),
     heap s !! i = Some o -> init_failed o ->
     obj_get i s = (Ok [warning_of o], s) /\
     obj_enter si nv cpu i s = (Ok i, s) /\
     obj_exit i s = (Ok tt, s)) /\
  (forall (e : exn) (nv : res unit) (s : state World) (i : nat) (o : obj World),
     heap s !! i = Some o -> o_cls o = CSensorMetric -> o_dict o = ∅ ->
     exists s' o', obj_enter (Raise e) nv cpu i s = (Ok i, s') /\
       backend_log s' = backend_log s ++ [SensorsInit] /\
       heap s' !! i = Some o' /\ init_failed o') /\
  (forall (si : res unit) (s : state World) (i : nat) (o : obj World),
     heap s !! i = Some o -> o_cls o = CGPUMetric -> o_dict o = ∅ ->
     exists s' o', obj_enter si (Raise NVMLError_LibraryNotFound) cpu i s = (Ok i, s') /\
       backend_log s' = backend_log s ++ [NvmlInit] /\
       heap s' !! i = Some o' /\ init_failed o') /\
  (forall (si : res unit) (e : exn) (s : state World) (i : nat) (o : obj World),
     heap s !! i = Some o -> o_cls o = CGPUMetric -> o_dict o = ∅ ->
     e <> NVMLError_LibraryNotFound ->
     exists s', obj_enter si (Raise e) cpu i s = (Raise e, s') /\
       backend_log s' = backend_log s ++ [NvmlInit]).
Proof.
  split; [|split; [|split]].
  - intros. by apply failed_init_noop.
  - intros. by eapply sensor_first_enter_init_error.
  - intros. by eapply gpu_first_enter_library_not_found.
  - intros. by eapply gpu_first_enter_other_error.
Qed.

Lemma failed_backend_degrades_witness :
  obj_get (World:=unit) 0 (init_state [failed_sensor])
    = (Ok [sensor_warning "coretemp"], init_state [failed_sensor]) /\
  obj_enter (World:=unit) (Ok tt) (Ok tt) id 0 (init_state [failed_sensor])
    = (Ok 0, init_state [failed_sensor]) /\
  obj_exit (World:=unit) 0 (init_state [failed_sensor]) = (Ok tt, init_state [failed_sensor]) /\
  (NVMLError 9 <> NVMLError_LibraryNotFound /\
   exists s', obj_enter (World:=unit) (Ok tt) (Raise (NVMLError 9)) id 0
                (init_state [fresh CGPUMetric (gauge "gpu_mem" (Ok (VList [])))]) = (Raise (NVMLError 9), s') /\
     backend_log s' = backend_log (init_state [fresh CGPUMetric (gauge "gpu_mem" (Ok (VList [])))]) ++ [NvmlInit]).
Proof.
  refine (conj _ (conj _ (conj _ _))).
  1-3: refine (_ (proj1 (failed_backend_degrades (World:=unit) id) (Ok tt) (Ok tt)
           (init_state [failed_sensor]) 0 failed_sensor eq_refl _));
       [ intros (H1 & H2 & H3); assumption
       | unfold init_failed; simpl; split; eexists; split; reflexivity ].
  split; [discriminate|].
  exact (proj2 (proj2 (proj2 (failed_backend_degrades (World:=unit) id))) (Ok tt) (NVMLError 9)
           (init_state [fresh CGPUMetric (gauge "gpu_mem" (Ok (VList [])))]) 0
           (fresh CGPUMetric (gauge "gpu_mem" (Ok (VList [])))) eq_refl eq_refl eq_refl
           ltac:(discriminate)).
Defined.

(** *** Rendering a response *)

Lemma write_metrics_app {World} (pre ms : list nat) out (s : state World) :
  write_metrics (pre ++ ms) out s =
  match write_metrics pre out s with
  | (Ok _, out', s') => write_metrics ms out' s'
  | r => r
  end.
Proof.
  revert out s. induction pre as [|i pre IH]; intros out s; simpl; [done|].
  destruct (obj_get i s) as [[ls|e] s']; [apply IH | done].
Qed.

Lemma m_world_raise {World A} (f : World -> res A * World) (s : state World) e w :
  f (world s) = (Raise e, w) -> m_world f s = (Raise e, set_world w s).
Proof. intros H. unfold m_world. by rewrite H. Qed.

(** [get] of an object whose [get] reaches [Metric.get] raises what its
    query raises. *)
Lemma obj_get_query_raises {World} (s : state World) i o e w :
  heap s !! i = Some o -> get_runs_query o = true ->
  m_query (o_metric o) (world s) = (Raise e, w) ->
  obj_get i s = (Raise e, set_world w s).
Proof.
  intros Hi Hr Hq.
  assert (Hm : Metric_get i s = (Raise e, set_world w s)).
  { unfold Metric_get. step. cbv zeta. by erewrite bind_raise by (apply m_world_raise; exact Hq). }
  unfold obj_get. step. unfold get_runs_query in Hr.
  destruct (o_cls o); try exact Hm.
  - unfold SensorMetric_get. destruct (getattr o "_initSuccess") as [a|] eqn:Ha; [|discriminate].
    step. by rewrite Hr.
  - unfold GPUMetric_get. destruct (getattr o "_NVMLInitSuccess") as [a|] eqn:Ha; [|discriminate].
    step. by rewrite Hr.
Qed.

(** C1 (amended): an exception raised by the query of a metric whose
    [get] runs it is not caught: [do_GET] stops there, having written the
    blocks of the metrics before it, nothing for this metric (no warning
    line) and nothing for the metrics after it, and raises the exception. *)
Theorem query_error_aborts_response {World} (pre post : list nat) (i : nat)
    (s s1 : state World) (out : list wevent) (o : obj World) (e : exn) (w : World) :
  write_metrics pre response_head s = (Ok tt, out, s1) ->
  heap s1 !! i = Some o -> get_runs_query o = true ->
  m_query (o_metric o) (world s1) = (Raise e, w) ->
  do_GET (pre ++ i :: post) s = (Raise e, out, set_world w s1).
Proof.
  intros Hpre Hi Hr Hq. unfold do_GET. rewrite write_metrics_app, Hpre. simpl.
  by rewrite (obj_get_query_raises s1 i o e w Hi Hr Hq).
Qed.

Lemma query_error_aborts_response_witness :
  do_GET [0; 1; 2] three_metrics
  = (Raise (QueryError "boom"),
     response_head ++ block_writes ["# HELP a help"; "# TYPE a gauge"; "a 2"],
     three_metrics).
Proof.
  apply (query_error_aborts_response [0] [2] 1 three_metrics three_metrics _
           (fresh CMetric (gauge "b" (Raise (QueryError "boom")))) (QueryError "boom") tt).
  - vm_compute. reflexivity.
  - reflexivity.
  - reflexivity.
  - reflexivity.
Defined.

Lemma write_metrics_ok {World} (ms : list nat) (s s' : state World) bs out :
  gets_ok ms s bs s' -> write_metrics ms out s = (Ok tt, out ++ flat_map block_writes bs, s').
Proof.
  intros H. revert out. induction H as [s|i ms s s1 s2 b bs Hget Hrest IH]; intros out; simpl.
  - by rewrite app_nil_r.
  - rewrite Hget, IH. unfold block_writes. by rewrite <- app_assoc.
Qed.

Lemma returns_value_ret {World A} (v : A) : returns_value (World:=World) (m_ret v) v.
Proof. intros s r s' [= -> _]. done. Qed.

Lemma returns_value_bind {World A B} (m : M World A) (k : A -> M World B) v :
  (forall a, returns_value (k a) v) -> returns_value (m_bind m k) v.
Proof.
  intros Hk s r s'. unfold m_bind. destruct (m s) as [[a|e] s1]; [apply Hk | discriminate].
Qed.

(** Every [__enter__] returns [self]. *)
Lemma obj_enter_returns_self {World} si nv (cpu : World -> World) i :
  returns_value (obj_enter si nv cpu i) i.
Proof.
  unfold obj_enter. apply returns_value_bind. intros o.
  destruct (o_cls o);
    unfold Metric_enter, CPUMetric_enter, SensorMetric_enter, GPUMetric_enter;
    repeat (apply returns_value_bind; intros); apply returns_value_ret.
Qed.

Lemma unwind_raises {World A} (stack : list nat) e (s : state World) r s' :
  @unwind World A stack e s = (r, s') -> exists e', r = Raise e'.
Proof.
  revert e s. induction stack as [|i stack IH]; intros e s; simpl.
  - intros [= <- _]. eauto.
  - destruct (obj_exit i s) as [[]] ; apply IH.
Qed.

Lemma enter_each_result {World} si nv (cpu : World -> World) ms stack acc s metrics st s' :
  enter_each si nv cpu ms stack acc s = (Ok (metrics, st), s') -> metrics = rev acc ++ ms.
Proof.
  revert stack acc s. induction ms as [|i ms IH]; intros stack acc s; simpl.
  - intros [= <- _ _]. by rewrite app_nil_r.
  - destruct (obj_enter si nv cpu i s) as [[r|e] s1] eqn:He.
    + intros H. apply IH in H. rewrite H.
      rewrite (obj_enter_returns_self si nv cpu i s r s1 He). simpl. by rewrite <- app_assoc.
    + intros H. apply unwind_raises in H as [? ?]. discriminate.
Qed.

(** C10 (amended): the list [metrics] that [__main__] builds is the
    registry itself, in registration order; and when every metric renders,
    [do_GET] writes the status and headers, then for each metric in that
    order its lines joined by newlines followed by one newline, so that
    consecutive blocks are not separated by an empty line. *)
Theorem response_blocks_in_registration_order {World} si nv (cpu : World -> World) :
  (forall (s s' : state World) metrics stack,
     main_open si nv cpu s = (Ok (metrics, stack), s') -> metrics = ALL_METRICS s) /\
  (forall (ms : list nat) (s s' : state World) (bs : list (list string)),
     gets_ok ms s bs s' ->
     do_GET ms s = (Ok tt, response_head ++ flat_map block_writes bs, s')).
Proof.
  split.
  - intros s s' metrics stack H. apply enter_each_result in H. done.
  - intros ms s s' bs H. by apply write_metrics_ok.
Qed.

Lemma response_blocks_in_registration_order_witness :
  [0; 1] = ALL_METRICS two_metrics /\
  do_GET [0; 1] two_metrics =
    (Ok tt, response_head ++ flat_map block_writes
              [["# HELP a help"; "# TYPE a gauge"; "a 2"];
               ["# HELP b help"; "# TYPE b gauge"; "b 1"]], two_metrics).
Proof.
  split.
  - apply (proj1 (response_blocks_in_registration_order (World:=unit) (Ok tt) (Ok tt) id)
             two_metrics two_metrics [0; 1] [1; 0]).
    vm_compute. reflexivity.
  - apply (proj2 (response_blocks_in_registration_order (World:=unit) (Ok tt) (Ok tt) id)).
    apply (gets_ok_cons 0 [1] two_metrics two_metrics two_metrics
             ["# HELP a help"; "# TYPE a gauge"; "a 2"] [["# HELP b help"; "# TYPE b gauge"; "b 1"]]).
    + vm_compute. reflexivity.
    + apply (gets_ok_cons 1 [] two_metrics two_metrics two_metrics
               ["# HELP b help"; "# TYPE b gauge"; "b 1"] []).
      * vm_compute. reflexivity.
      * constructor.
Defined.

(** *** The registry *)

Section Registry.
Context {World : Type}.

Lemma keeps_ret {A} (a : A) : keeps_registry (World:=World) (m_ret a).
Proof. intros s r s' [= _ <-]. done. Qed.

Lemma keeps_raise {A} e : keeps_registry (World:=World) (A:=A) (m_raise e).
Proof. intros s r s' [= _ <-]. done. Qed.

Lemma keeps_lift {A} (x : res A) : keeps_registry (World:=World) (m_lift x).
Proof. intros s r s' [= _ <-]. done. Qed.

Lemma keeps_bind {A B} (m : M World A) (k : A -> M World B) :
  keeps_registry m -> (forall a, keeps_registry (k a)) -> keeps_registry (m_bind m k).
Proof.
  intros Hm Hk s r s'. unfold m_bind. destruct (m s) as [[a|e] s1] eqn:E.
  - intros H. rewrite (Hk a s1 r s' H). exact (Hm s _ s1 E).
  - intros [= _ <-]. exact (Hm s _ s1 E).
Qed.

Lemma keeps_obj i : keeps_registry (World:=World) (m_obj i).
Proof. intros s r s'. unfold m_obj. destruct (heap s !! i); by intros [= _ <-]. Qed.

Lemma keeps_setattr i k v : keeps_registry (World:=World) (m_setattr i k v).
Proof. intros s r s'. unfold m_setattr. destruct (heap s !! i); by intros [= _ <-]. Qed.

Lemma keeps_call c : keeps_registry (World:=World) (m_call c).
Proof. intros s r s' [= _ <-]. done. Qed.

Lemma keeps_world {A} (f : World -> res A * World) : keeps_registry (m_world f).
Proof. intros s r s'. unfold m_world. destruct (f (world s)). by intros [= _ <-]. Qed.

Lemma keeps_getattr i k : keeps_registry (World:=World) (m_getattr i k).
Proof. apply keeps_bind; [apply keeps_obj | intros; apply keeps_lift]. Qed.
End Registry.

Create HintDb registry.
#[export] Hint Resolve keeps_ret keeps_raise keeps_lift keeps_obj keeps_setattr
  keeps_call keeps_world keeps_getattr : registry.

(** Splits a method into its primitive steps. *)
Ltac keeps :=
  repeat first
    [ apply keeps_bind; [|intros]
    | solve [auto with registry]
    | progress unfold Metric_enter, Metric_exit, Metric_get
    | match goal with
      | |- keeps_registry (if ?b then _ else _) => destruct b
      | |- keeps_registry (match ?x with _ => _ end) => destruct x
      end ].

Section RegistryMethods.
Context {World : Type} (si nv : res unit) (cpu : World -> World).

Lemma keeps_enter i : keeps_registry (obj_enter si nv cpu i).
Proof.
  unfold obj_enter. apply keeps_bind; [apply keeps_obj|]. intros o.
  destruct (o_cls o);
    unfold Metric_enter, CPUMetric_enter, SensorMetric_enter, GPUMetric_enter; keeps.
Qed.

Lemma keeps_exit i : keeps_registry (World:=World) (obj_exit i).
Proof.
  unfold obj_exit. apply keeps_bind; [apply keeps_obj|]. intros o.
  destruct (o_cls o); unfold Metric_exit, SensorMetric_exit, GPUMetric_exit; keeps.
Qed.

Lemma keeps_get i : keeps_registry (World:=World) (obj_get i).
Proof.
  unfold obj_get. apply keeps_bind; [apply keeps_obj|]. intros o.
  destruct (o_cls o); unfold Metric_get, SensorMetric_get, GPUMetric_get; keeps.
Qed.

Lemma keeps_new c m : keeps_registry (World:=World) (new_metric c m).
Proof. unfold new_metric. keeps. intros s r s' [= _ <-]. done. Qed.

Lemma keeps_unwind {A} stack e : keeps_registry (World:=World) (A:=A) (unwind stack e).
Proof.
  revert e. induction stack as [|i stack IH]; intros e s r s'; simpl.
  - by intros [= _ <-].
  - destruct (obj_exit i s) as [[] s1] eqn:E; intros H;
      rewrite (IH _ _ _ _ H); exact (keeps_exit i s _ s1 E).
Qed.

Lemma keeps_close stack : keeps_registry (World:=World) (close_stack stack).
Proof.
  induction stack as [|i stack IH]; intros s r s'; simpl.
  - by intros [= _ <-].
  - destruct (obj_exit i s) as [[] s1] eqn:E; intros H.
    + rewrite (IH _ _ _ H). exact (keeps_exit i s _ s1 E).
    + rewrite (keeps_unwind _ _ _ _ _ H). exact (keeps_exit i s _ s1 E).
Qed.

Lemma keeps_enter_each ms stack acc : keeps_registry (enter_each si nv cpu ms stack acc).
Proof.
  revert stack acc. induction ms as [|i ms IH]; intros stack acc s r s'; simpl.
  - by intros [= _ <-].
  - destruct (obj_enter si nv cpu i s) as [[] s1] eqn:E; intros H.
    + rewrite (IH _ _ _ _ _ H). exact (keeps_enter i s _ s1 E).
    + rewrite (keeps_unwind _ _ _ _ _ H). exact (keeps_enter i s _ s1 E).
Qed.

Lemma keeps_write_metrics ms out (s s' : state World) r out' :
  write_metrics ms out s = (r, out', s') -> ALL_METRICS s' = ALL_METRICS s.
Proof.
  revert out s. induction ms as [|i ms IH]; intros out s; simpl.
  - by intros [= _ _ <-].
  - destruct (obj_get i s) as [[] s1] eqn:E; intros H.
    + rewrite (IH _ _ H). exact (keeps_get i s _ s1 E).
    + injection H as _ _ <-. exact (keeps_get i s _ s1 E).
Qed.
End RegistryMethods.

(** C7 (amended): [register] appends the object to [ALL_METRICS] whatever
    names the registry already holds, so a second metric with a registered
    name is appended next to the first; constructing a metric, entering,
    exiting and rendering one, serving a request, and opening and closing
    the contexts in [__main__] leave [ALL_METRICS] unchanged. *)
Theorem registry_changed_only_by_register {World} (si nv : res unit) (cpu : World -> World) :
  (forall (s : state World) (i : nat),
     register i s = (Ok tt, set_registry (ALL_METRICS s ++ [i]) s)) /\
  (forall c m, keeps_registry (World:=World) (new_metric c m)) /\
  (forall i, keeps_registry (obj_enter si nv cpu i)) /\
  (forall i, keeps_registry (World:=World) (obj_exit i)) /\
  (forall i, keeps_registry (World:=World) (obj_get i)) /\
  (forall ms (s s' : state World) r out,
     do_GET ms s = (r, out, s') -> ALL_METRICS s' = ALL_METRICS s) /\
  keeps_registry (main_open si nv cpu) /\
  (forall stack, keeps_registry (World:=World) (close_stack stack)).
Proof.
  repeat split.
  - apply keeps_new.
  - apply keeps_enter.
  - apply keeps_exit.
  - apply keeps_get.
  - intros ms s s' r out. apply keeps_write_metrics.
  - intros s r s'. apply keeps_enter_each.
  - apply keeps_close.
Qed.

Lemma registry_changed_only_by_register_witness :
  register 3 three_metrics = (Ok tt, set_registry [0; 1; 2; 3] three_metrics) /\
  ALL_METRICS (snd (do_GET [0; 1; 2] three_metrics)) = ALL_METRICS three_metrics.
Proof.
  split.
  - exact (proj1 (registry_changed_only_by_register (World:=unit) (Ok tt) (Ok tt) id)
             three_metrics 3).
  - apply (proj1 (proj2 (proj2 (proj2 (proj2 (proj2
             (registry_changed_only_by_register (World:=unit) (Ok tt) (Ok tt) id))))))
             [0; 1; 2] three_metrics _
             (fst (fst (do_GET [0; 1; 2] three_metrics)))
             (snd (fst (do_GET [0; 1; 2] three_metrics)))).
    vm_compute. reflexivity.
Defined.

(** *** [GPUMeta] *)

Section GPUMetaFacts.
Context {handle : Type} (count : res nat) (getH : nat -> res handle)
        (getU : handle -> res string).

Lemma gpumeta_call_cases (fn : handle -> res pyval) st r st' :
  GPUMeta_call count getH getU fn st = (r, st') ->
  match r with
  | Ok v => v = VList []
  | Raise e => gm_init st = false /\ enumeration count getH getU st = Raise e
  end.
Proof.
  unfold GPUMeta_call, enumeration. destruct (gm_init st) eqn:Hi.
  - intros [= <- _]. done.
  - destruct count as [n|e]; cbv iota beta.
    + destruct (add_devices getH getU (seq 0 n) (gm_id_handles st)) as [[] ids] eqn:E;
        intros [= <- _]; simpl; done.
    + intros [= <- _]. done.
Qed.
End GPUMetaFacts.

(** C3 (amended): a [GPUMeta]-wrapped query returns the empty list once its
    handle cache is initialised, and on the first call when the NVML device
    enumeration succeeds (the comprehension reads the unbound name
    [handles], and the bare [except] turns the [NameError] into [[]]); on
    the first call an NVML error of the enumeration, which runs outside the
    [try], propagates: the first call returns [[]] when the enumeration
    succeeds and raises the enumeration's error when it does not.  Whenever a metric with such a query renders through
    [Metric.get], its lines are its header lines and no data line. *)
Theorem gpumeta_query_returns_empty {handle : Type} (count : res nat)
    (getH : nat -> res handle) (getU : handle -> res string) (fn : handle -> res pyval) :
  (forall st, gm_init st = true ->
     GPUMeta_call count getH getU fn st = (Ok (VList []), st)) /\
  (forall st r st', GPUMeta_call count getH getU fn st = (r, st') ->
     match r with
     | Ok v => v = VList []
     | Raise e => gm_init st = false /\ enumeration count getH getU st = Raise e
     end) /\
  (forall st, gm_init st = false ->
     fst (GPUMeta_call count getH getU fn st) =
       match enumeration count getH getU st with
       | Ok _ => Ok (VList [])
       | Raise e => Raise e
       end) /\
  (forall (s s' : state gpumeta_state) (i : nat) (o : obj gpumeta_state) (ls : list string),
     heap s !! i = Some o ->
     m_query (o_metric o) = GPUMeta_call count getH getU fn ->
     Metric_get i s = (Ok ls, s') -> ls = header_lines (o_metric o)).
Proof.
  split; [|split; [|split]].
  - intros st Hi. unfold GPUMeta_call. by rewrite Hi.
  - intros st r st'. apply gpumeta_call_cases.
  - intros st Hi. unfold GPUMeta_call, enumeration. rewrite Hi.
    destruct count as [n|e]; cbv iota beta; [|reflexivity].
    by destruct (add_devices getH getU (seq 0 n) (gm_id_handles st)) as [[] ids].
  - intros s s' i o ls Hi Hq. unfold Metric_get. step. cbv zeta.
    unfold m_bind at 1, m_world. rewrite Hq.
    destruct (GPUMeta_call count getH getU fn (world s)) as [r w] eqn:E.
    apply gpumeta_call_cases in E. destruct r as [v|e]; [|discriminate].
    subst v. simpl. intros [= <- _]. unfold header_lines. by rewrite app_nil_r.
Qed.

Lemma gpumeta_query_returns_empty_witness :
  GPUMeta_call (handle:=nat) (Ok 2) Ok (fun _ => Ok "GPU-0")
      (fun _ => Ok (VScalar (SInt 1))) (mk_gpumeta_state true []) =
    (Ok (VList []), mk_gpumeta_state true []) /\
  (gm_init (mk_gpumeta_state (handle:=nat) false []) = false /\
   enumeration (Raise (NVMLError 3)) Ok (fun _ => Ok "GPU-0")
     (mk_gpumeta_state (handle:=nat) false []) = Raise (NVMLError 3)) /\
  (gm_init (mk_gpumeta_state (handle:=nat) false []) = false /\
   fst (GPUMeta_call (handle:=nat) (Raise (NVMLError 3)) Ok (fun _ => Ok "GPU-0")
          (fun _ => Ok (VScalar (SInt 1))) (mk_gpumeta_state false [])) = Raise (NVMLError 3)).
Proof.
  split; [|split].
  3: split; [reflexivity|];
     exact (proj1 (proj2 (proj2 (gpumeta_query_returns_empty (handle:=nat) (Raise (NVMLError 3)) Ok
              (fun _ => Ok "GPU-0") (fun _ => Ok (VScalar (SInt 1))))))
              (mk_gpumeta_state false []) eq_refl).
  - apply (proj1 (gpumeta_query_returns_empty (handle:=nat) (Ok 2) Ok (fun _ => Ok "GPU-0")
                    (fun _ => Ok (VScalar (SInt 1))))).
    reflexivity.
  - exact (proj1 (proj2 (gpumeta_query_returns_empty (handle:=nat) (Raise (NVMLError 3)) Ok
                    (fun _ => Ok "GPU-0") (fun _ => Ok (VScalar (SInt 1)))))
             (mk_gpumeta_state false []) (Raise (NVMLError 3)) (mk_gpumeta_state true [])
             eq_refl).
Defined.

(** ** Further properties of the module *)

(** *** Dicts kept in insertion order *)

Lemma dict_set_keys {V} (d : list (string * V)) k v k' :
  k' ∈ (dict_set d k v).*1 <-> k' = k \/ k' ∈ d.*1.
Proof.
  induction d as [|[k0 v0] d IH]; simpl.
  - set_solver.
  - destruct (String.eqb_spec k0 k) as [->|Hne]; simpl; rewrite !elem_of_cons; [|rewrite IH];
      naive_solver.
Qed.

Lemma dict_set_nodup {V} (d : list (string * V)) k v :
  NoDup d.*1 -> NoDup (dict_set d k v).*1.
Proof.
  induction d as [|[k0 v0] d IH]; simpl; intros Hnd.
  - constructor; [set_solver|constructor].
  - inversion Hnd as [|? ? Hk0 Hnd']; subst.
    destruct (String.eqb_spec k0 k); simpl; constructor; auto.
    rewrite dict_set_keys. naive_solver.
Qed.

Lemma dict_set_fresh {V} (d : list (string * V)) k v :
  k ∉ d.*1 -> dict_set d k v = d ++ [(k, v)].
Proof.
  induction d as [|[k0 v0] d IH]; simpl; intros Hk; [done|].
  destruct (String.eqb_spec k0 k); [set_solver|]. rewrite IH; set_solver.
Qed.

Lemma dict_get_keys {V} (d : list (string * V)) k :
  match dict_get d k with
  | Ok _ => k ∈ d.*1
  | Raise e => e = KeyError k /\ k ∉ d.*1
  end.
Proof.
  induction d as [|[k0 v0] d IH]; simpl.
  - split; [done|set_solver].
  - destruct (String.eqb_spec k0 k) as [->|Hne]; [set_solver|].
    destruct (dict_get d k); [set_solver|]. destruct IH as [-> IH]. split; [done|set_solver].
Qed.

Lemma fold_dict_set_keys {V} (kvs d : list (string * V)) k :
  k ∈ (fold_left (fun d kv => dict_set d kv.1 kv.2) kvs d).*1 <-> k ∈ d.*1 \/ k ∈ kvs.*1.
Proof.
  revert d. induction kvs as [|[k0 v0] kvs IH]; intros d; simpl.
  - set_solver.
  - rewrite IH, dict_set_keys, elem_of_cons. naive_solver.
Qed.

(** *** [RunningDelta] *)

Lemma last_cons_default {A} (x : A) (l : list A) (d : A) :
  default d (last (x :: l)) = default x (last l).
Proof. rewrite last_cons. by destruct (last l). Qed.

(** X1: feeding the values [xs] to a [RunningDelta] whose [prev] is [p]
    returns deltas that add up to the last value minus [p], and leaves
    [prev] at the last value ([p] if [xs] is empty). *)
Theorem running_deltas_telescope (p : Z) (xs : list Z) :
  (running_deltas p xs).2 = default p (last xs) /\
  foldr Z.add 0%Z (running_deltas p xs).1 = (default p (last xs) - p)%Z.
Proof.
  revert p. induction xs as [|x xs IH]; intros p; simpl.
  - split; [done|lia].
  - destruct (IH x) as [H1 H2].
    destruct (running_deltas x xs) as [ds l] eqn:E. simpl in *.
    rewrite last_cons_default, <- H1. split; [done|]. rewrite H2, H1. lia.
Qed.

(** *** [DiskRequestSizer] *)

Lemma sizer_call_state (self : sizer) (d : disk_io) :
  snd (DiskRequestSizer_call self d) = sizer_of d.
Proof.
  unfold DiskRequestSizer_call, running_delta. simpl. reflexivity.
Qed.

(** X2: one call of a [DiskRequestSizer]: with [rb], [rc], [wb], [wc] the
    deltas of the four counters since the previous call, it returns the
    empty dict when [rc <= 0]; otherwise it raises [ZeroDivisionError]
    when [wc = 0], and returns [read: rb/rc] and [write: wb/wc] when not.
    In every case, the exception included, its four [prev] fields become
    the counters of this call. *)
Theorem DiskRequestSizer_call_cases (self : sizer) (d : disk_io) :
  let rb := (read_bytes d - rbD self)%Z in
  let rc := (read_count d - rcD self)%Z in
  let wb := (write_bytes d - wbD self)%Z in
  let wc := (write_count d - wcD self)%Z in
  DiskRequestSizer_call self d =
    ((if Z.ltb 0 rc then
        if Z.eqb wc 0 then Raise ZeroDivisionError
        else Ok [("read", Qred (Qdiv (inject_Z rb) (inject_Z rc)));
                 ("write", Qred (Qdiv (inject_Z wb) (inject_Z wc)))]
      else Ok []),
     sizer_of d).
Proof.
  unfold DiskRequestSizer_call, running_delta, py_div, sizer_of. simpl.
  destruct (Z.ltb_spec 0 (read_count d - rcD self)); simpl; [|reflexivity].
  rewrite (proj2 (Z.eqb_neq _ 0)) by lia. simpl.
  destruct (Z.eqb _ 0); reflexivity.
Qed.

(** *** [disk_meta] *)

Lemma disk_meta_loop_keys {D V S} (fn : partition -> D -> S -> res V * S) ioc ps :
  forall parts st d st',
  disk_meta_loop fn ioc ps parts st = (Ok d, st') ->
  NoDup parts.*1 -> ("/boot" ∉ parts.*1) ->
  NoDup d.*1 /\ ("/boot" ∉ d.*1) /\
  (forall k, k ∈ d.*1 <-> k ∈ parts.*1 \/ (exists p, p ∈ ps /\ mountpoint p = k /\ k <> "/boot")).
Proof.
  induction ps as [|p ps IH]; intros parts st d st' Hrun Hnd Hb; cbn [disk_meta_loop] in Hrun.
  - injection Hrun as <- _. split; [done|]. split; [done|]. set_solver.
  - case_bool_decide as Hboot.
    + apply list_elem_of_singleton in Hboot.
      destruct (IH _ _ _ _ Hrun Hnd Hb) as (H1 & H2 & H3).
      split; [done|]. split; [done|]. intros k. rewrite H3. set_solver.
    + destruct (ioc !! str_drop 5 (device p)) as [dioc|]; simpl in Hrun; [|discriminate].
      destruct (fn p dioc st) as [[v|e] st1]; simpl in Hrun; [|discriminate].
      assert (Hb' : mountpoint p <> "/boot") by set_solver.
      destruct (IH _ _ _ _ Hrun (dict_set_nodup _ _ _ Hnd)) as (H1 & H2 & H3).
      { rewrite dict_set_keys. naive_solver. }
      split; [done|]. split; [done|]. intros k. rewrite H3, dict_set_keys.
      setoid_rewrite elem_of_cons. naive_solver.
Qed.

(** X3: when [disk_meta(fn)()] returns, its dict has one key per mount
    point of the partitions, except [/boot], which never appears, and no
    other key. *)
Theorem disk_meta_keys {D V S} (fn : partition -> D -> S -> res V * S)
    (ioc : gmap string D) (ps : list partition) (st : S) d st' :
  disk_meta fn ioc ps st = (Ok d, st') ->
  NoDup d.*1 /\ ("/boot" ∉ d.*1) /\
  (forall k, k ∈ d.*1 <-> exists p, p ∈ ps /\ mountpoint p = k /\ k <> "/boot").
Proof.
  intros Hrun. destruct (disk_meta_loop_keys fn ioc ps [] st d st' Hrun) as (H1 & H2 & H3).
  - constructor.
  - set_solver.
  - split; [done|]. split; [done|]. intros k. rewrite H3. set_solver.
Qed.

Lemma disk_meta_keys_witness :
  let ps := [mk_partition "/dev/sda1" "/"; mk_partition "/dev/sda2" "/boot"] in
  let ioc : gmap string Z := {[ "sda1" := 7%Z; "sda2" := 8%Z ]} in
  disk_meta (fun (_ : partition) (dioc : Z) (st : unit) => (Ok dioc, st)) ioc ps tt = (Ok [("/", 7%Z)], tt) /\
  (NoDup [("/", 7%Z)].*1 /\ ("/boot" ∉ [("/", 7%Z)].*1) /\
   (forall k, k ∈ [("/", 7%Z)].*1 <-> exists p, p ∈ ps /\ mountpoint p = k /\ k <> "/boot")).
Proof.
  intros ps ioc.
  assert (H : disk_meta (fun (_ : partition) (dioc : Z) (st : unit) => (Ok dioc, st)) ioc ps tt = (Ok [("/", 7%Z)], tt))
    by (vm_compute; reflexivity).
  split; [exact H | exact (disk_meta_keys _ ioc ps tt _ _ H)].
Defined.

(** X4: if [fn] always returns, and the device name (without its first
    five characters, the [/dev/] prefix) of some partition other than
    [/boot] is no key of the I/O counters, then [disk_meta(fn)()] raises
    [KeyError] for a device name missing from the counters. *)
Theorem disk_meta_missing_device {D V S} (fn : partition -> D -> S -> res V * S)
    (ioc : gmap string D) (ps : list partition) (st : S) (p : partition) :
  (forall p' dioc s, exists v s', fn p' dioc s = (Ok v, s')) ->
  p ∈ ps -> mountpoint p <> "/boot" -> ioc !! str_drop 5 (device p) = None ->
  exists k, fst (disk_meta fn ioc ps st) = Raise (KeyError k) /\ ioc !! k = None.
Proof.
  intros Hfn Hp Hb Hmiss. unfold disk_meta. generalize (@nil (string * V)) as parts.
  revert st. induction ps as [|p0 ps IH]; intros st parts; [set_solver|]. cbn [disk_meta_loop].
  apply elem_of_cons in Hp.
  case_bool_decide as Hboot.
  - apply list_elem_of_singleton in Hboot. destruct Hp as [->|Hp]; [done|]. auto.
  - destruct (ioc !! str_drop 5 (device p0)) as [dioc|] eqn:Hl.
    + destruct Hp as [->|Hp]; [congruence|].
      destruct (Hfn p0 dioc st) as (v & s' & ->). auto.
    + eexists. split; [reflexivity|done].
Qed.

Lemma disk_meta_missing_device_witness :
  let p := mk_partition "/dev/sdb1" "/data" in
  let ioc : gmap string Z := {[ "sda1" := 7%Z ]} in
  ((forall p' (dioc : Z) (st : unit), exists v st', (fun (_ : partition) (d : Z) (st0 : unit) => (Ok d, st0)) p' dioc st = (Ok v, st')) /\
   p ∈ [mk_partition "/dev/sda1" "/"; p] /\ mountpoint p <> "/boot" /\ ioc !! str_drop 5 (device p) = None) /\
  exists k, fst (disk_meta (fun (_ : partition) (d : Z) (st0 : unit) => (Ok d, st0)) ioc [mk_partition "/dev/sda1" "/"; p] tt)
              = Raise (KeyError k) /\ ioc !! k = None.
Proof.
  intros p ioc.
  assert (Hfn : forall p' (dioc : Z) (st : unit),
            exists v st', (fun (_ : partition) (d : Z) (st0 : unit) => (Ok d, st0)) p' dioc st = (Ok v, st'))
    by (intros p' dioc st; exists dioc, st; reflexivity).
  assert (Hp : p ∈ [mk_partition "/dev/sda1" "/"; p]) by (right; left).
  assert (Hb : mountpoint p <> "/boot") by discriminate.
  assert (Hm : ioc !! str_drop 5 (device p) = None) by (vm_compute; reflexivity).
  split; [split; [exact Hfn | split; [exact Hp | split; [exact Hb | exact Hm]]]|].
  exact (disk_meta_missing_device _ ioc _ tt p Hfn Hp Hb Hm).
Defined.

(** X5: [disk_req_size] feeds every partition to one shared
    [DiskRequestSizer].  For two partitions other than [/boot] with
    distinct mount points and counters [d1] and [d2], the ratios of the
    second are those of a sizer whose [prev] fields are the counters [d1]
    of the first disk, not of its own previous poll. *)
Theorem disk_req_size_shared_sizer (ioc : gmap string disk_io) (p1 p2 : partition)
    (d1 d2 : disk_io) (st : sizer) :
  mountpoint p1 <> "/boot" -> mountpoint p2 <> "/boot" -> mountpoint p1 <> mountpoint p2 ->
  ioc !! str_drop 5 (device p1) = Some d1 -> ioc !! str_drop 5 (device p2) = Some d2 ->
  fst (disk_req_size ioc [p1; p2] st) =
    match fst (DiskRequestSizer_call st d1) with
    | Raise e => Raise e
    | Ok v1 =>
        match fst (DiskRequestSizer_call (sizer_of d1) d2) with
        | Raise e => Raise e
        | Ok v2 => Ok [(mountpoint p1, v1); (mountpoint p2, v2)]
        end
    end.
Proof.
  intros Hb1 Hb2 Hne H1 H2. unfold disk_req_size, disk_meta. cbn [disk_meta_loop].
  rewrite bool_decide_false by set_solver. rewrite H1.
  pose proof (sizer_call_state st d1) as Hs1.
  destruct (DiskRequestSizer_call st d1) as [[v1|e] s1]; cbn [fst snd] in *; [|done]. subst s1.
  rewrite bool_decide_false by set_solver. rewrite H2.
  destruct (DiskRequestSizer_call (sizer_of d1) d2) as [[v2|e] s2]; simpl; [|done].
  rewrite (proj2 (String.eqb_neq _ _) Hne). reflexivity.
Qed.

Lemma disk_req_size_shared_sizer_witness :
  let p1 := mk_partition "/dev/sda1" "/" in
  let p2 := mk_partition "/dev/sdb1" "/home" in
  let d1 := mk_disk_io 4096 10 8192 20 in
  let d2 := mk_disk_io 1024 2 512 1 in
  let ioc : gmap string disk_io := {[ "sda1" := d1; "sdb1" := d2 ]} in
  (mountpoint p1 <> "/boot" /\ mountpoint p2 <> "/boot" /\ mountpoint p1 <> mountpoint p2 /\
   ioc !! str_drop 5 (device p1) = Some d1 /\ ioc !! str_drop 5 (device p2) = Some d2) /\
  fst (disk_req_size ioc [p1; p2] sizer_init) =
    match fst (DiskRequestSizer_call sizer_init d1) with
    | Raise e => Raise e
    | Ok v1 =>
        match fst (DiskRequestSizer_call (sizer_of d1) d2) with
        | Raise e => Raise e
        | Ok v2 => Ok [(mountpoint p1, v1); (mountpoint p2, v2)]
        end
    end.
Proof.
  intros p1 p2 d1 d2 ioc.
  assert (H1 : mountpoint p1 <> "/boot") by discriminate.
  assert (H2 : mountpoint p2 <> "/boot") by discriminate.
  assert (H12 : mountpoint p1 <> mountpoint p2) by discriminate.
  assert (L1 : ioc !! str_drop 5 (device p1) = Some d1) by (vm_compute; reflexivity).
  assert (L2 : ioc !! str_drop 5 (device p2) = Some d2) by (vm_compute; reflexivity).
  split; [split; [exact H1 | split; [exact H2 | split; [exact H12 | split; [exact L1 | exact L2]]]]|].
  exact (disk_req_size_shared_sizer ioc p1 p2 d1 d2 sizer_init H1 H2 H12 L1 L2).
Defined.

(** *** [netio] *)

Lemma netio_loop_fresh (nics : list (string * nic)) (parts : list (string * pyval)) :
  NoDup nics.*1 -> (forall k, k ∈ parts.*1 -> k ∉ nics.*1) ->
  netio_loop nics parts =
    parts ++ ((fun kn => (kn.1, VDict [("sent", VScalar (SInt (bytes_sent kn.2)));
                                       ("recv", VScalar (SInt (bytes_recv kn.2)))]))
              <$> filter (fun kn => kn.1 <> "lo") nics).
Proof.
  revert parts. induction nics as [|[k n] nics IH]; intros parts Hnd Hdis; simpl.
  - by rewrite app_nil_r.
  - inversion Hnd as [|? ? Hk Hnd']; subst. rewrite filter_cons.
    destruct (String.eqb_spec k "lo") as [->|Hne]; cbn [negb].
    + rewrite decide_False by (intros H; by apply H). apply IH; [done|set_solver].
    + rewrite decide_True by done. rewrite dict_set_fresh by set_solver.
      rewrite IH; [by rewrite <- app_assoc| done |].
      intros k'. rewrite fmap_app, elem_of_app. simpl. set_solver.
Qed.

(** X6: for a NIC dict (its keys are distinct), [netio()] returns, in
    the order of the NIC dict, one entry per NIC except [lo], mapping
    [sent] and [recv] to its byte counters. *)
Theorem netio_skips_loopback (nics : list (string * nic)) :
  NoDup nics.*1 ->
  netio nics =
    VDict ((fun kn => (kn.1, VDict [("sent", VScalar (SInt (bytes_sent kn.2)));
                                    ("recv", VScalar (SInt (bytes_recv kn.2)))]))
           <$> filter (fun kn => kn.1 <> "lo") nics).
Proof. intros Hnd. unfold netio. rewrite netio_loop_fresh; [done|done|set_solver]. Qed.

Lemma netio_skips_loopback_witness :
  let nics := [("lo", mk_nic 10 10); ("eth0", mk_nic 300 400)] in
  NoDup nics.*1 /\
  netio nics =
    VDict ((fun kn => (kn.1, VDict [("sent", VScalar (SInt (bytes_sent kn.2)));
                                    ("recv", VScalar (SInt (bytes_recv kn.2)))]))
           <$> filter (fun kn => kn.1 <> "lo") nics).
Proof.
  intros nics.
  assert (H : NoDup nics.*1) by (apply (bool_decide_unpack _); vm_compute; reflexivity).
  split; [exact H | exact (netio_skips_loopback nics H)].
Defined.

(** *** [cpu] and [CPUMetric] *)

Lemma cpu_lines_from (ts : list cputimes) (i : nat) :
  extend_each (fun i v =>
      let* p := label ["id"; "type"] (str_nat i) in
      _tostr_inner "cpu" (Some div100) ([] ++ [p]) v (tail ["id"; "type"]))
    i (map (fun c => VDict (cpustat c)) ts) =
  Ok (flat_each (fun i c =>
        (fun kv => leaf_line "cpu" [mk_label "id" (str_nat i); mk_label "type" kv.1]
                     (SFloat (Qdiv kv.2 100))) <$> cpu_fields c) i ts).
Proof.
  revert i. induction ts as [|c ts IH]; intros i; [reflexivity|].
  cbn [map extend_each flat_each]. rewrite IH. reflexivity.
Qed.

Lemma flat_each_length {A B} (f : nat -> A -> list B) k :
  (forall n x, length (f n x) = k) -> forall l n, length (flat_each f n l) = k * length l.
Proof.
  intros Hf l. induction l as [|x l IH]; intros n; cbn [flat_each length]; [lia|].
  rewrite length_app, Hf, IH. lia.
Qed.

Lemma flat_each_lookup {A B} (f : nat -> A -> list B) k :
  (forall n x, length (f n x) = k) ->
  forall l n i j x, l !! i = Some x -> j < k ->
  flat_each f n l !! (k * i + j) = f (n + i) x !! j.
Proof.
  intros Hf l. induction l as [|y l IH]; intros n i j x Hi Hj; [done|].
  cbn [flat_each]. destruct i as [|i]; simpl in Hi.
  - injection Hi as <-. rewrite lookup_app_l by (rewrite Hf; lia).
    by replace (k * 0 + j) with j by lia; replace (n + 0) with n by lia.
  - rewrite lookup_app_r by (rewrite Hf; lia).
    replace (k * S i + j - length (f n y)) with (k * i + j) by (rewrite Hf; lia).
    rewrite (IH (S n) i j x Hi Hj). by replace (S n + i) with (n + S i) by lia.
Qed.

Lemma string_app_assoc (a b c : string) : (a +:+ b) +:+ c = a +:+ (b +:+ c).
Proof.
  induction a as [|ch a IH]; [reflexivity|].
  change (String ch ((a +:+ b) +:+ c) = String ch (a +:+ b +:+ c)). by rewrite IH.
Qed.

Lemma leaf_line_two (name a b : string) (v : scalar) :
  leaf_line name [a; b] v = name +:+ "{" +:+ a +:+ "," +:+ b +:+ "} " +:+ str_scalar v.
Proof. unfold leaf_line. cbn [String.concat]. by rewrite !string_app_assoc. Qed.

(** X7: the [cpu] metric always renders, for the per-CPU entries [ts] of
    [psutil.cpu_times_percent(percpu=True)]: six lines per CPU in CPU
    order, the line [6 i + j] labelled with the CPU index [i] and the
    [j]-th of the types [user], [system], [idle], [iowait], [allirq] and
    [other]. *)
Theorem cpu_metric_lines (ts : list cputimes) :
  exists ls, _tostr "cpu" (Some div100) (cpu ts) ["id"; "type"] = Ok ls /\
    length ls = 6 * length ts /\
    forall i c j t, ts !! i = Some c ->
      ["user"; "system"; "idle"; "iowait"; "allirq"; "other"] !! j = Some t ->
      exists txt, ls !! (6 * i + j) =
        Some ("cpu{" +:+ mk_label "id" (str_nat i) +:+ "," +:+ mk_label "type" t +:+ "} " +:+ txt).
Proof.
  eexists. split; [apply cpu_lines_from|].
  assert (Hk : forall n c, length ((fun kv => leaf_line "cpu" [mk_label "id" (str_nat n); mk_label "type" kv.1]
                     (SFloat (Qdiv kv.2 100))) <$> cpu_fields c) = 6)
    by (intros n c; by rewrite length_fmap).
  split; [by apply (flat_each_length _ 6 Hk)|].
  intros i c j t Hc Ht.
  assert (Hj : j < 6) by (apply lookup_lt_Some in Ht; done).
  rewrite (flat_each_lookup _ 6 Hk ts 0 i j c Hc Hj), list_lookup_fmap.
  destruct (cpu_fields c !! j) as [kv|] eqn:Hkv;
    [| apply lookup_ge_None in Hkv; simpl in Hkv; lia].
  assert (kv.1 = t) as <-.
  { do 6 (destruct j as [|j]; [simpl in Ht, Hkv; injection Hkv as <-; injection Ht as <-; reflexivity|]).
    lia. }
  exists (str_scalar (SFloat (Qdiv kv.2 100))).
  transitivity (Some (leaf_line "cpu" [mk_label "id" (str_nat i); mk_label "type" kv.1]
                        (SFloat (Qdiv kv.2 100)))); [reflexivity|].
  rewrite leaf_line_two. reflexivity.
Qed.

(** *** [sanitizeName] *)

Lemma sanitizeName_cons (c : ascii) (s : string) :
  sanitizeName (String c s) =
  String (if Ascii.eqb (ascii_lower c) " "%char then "_"%char else ascii_lower c) (sanitizeName s).
Proof. reflexivity. Qed.

Lemma sanitize_char_idem (c : ascii) :
  let f := fun c => if Ascii.eqb (ascii_lower c) " "%char then "_"%char else ascii_lower c in
  f (f c) = f c.
Proof. destruct c as [[] [] [] [] [] [] [] []]; reflexivity. Qed.

Lemma sanitize_char_clean (c : ascii) :
  let c' := if Ascii.eqb (ascii_lower c) " "%char then "_"%char else ascii_lower c in
  c' <> " "%char /\ ~ (65 <= nat_of_ascii c' <= 90).
Proof. destruct c as [[] [] [] [] [] [] [] []]; vm_compute; (split; [discriminate|lia]). Qed.

(** X8: [sanitizeName] keeps the length of an ASCII name, leaves no
    space and no upper-case letter in it, and sanitising twice gives the
    same name as sanitising once. *)
Theorem sanitizeName_clean (s : string) :
  String.length (sanitizeName s) = String.length s /\
  (forall c, c ∈ String.list_ascii_of_string (sanitizeName s) ->
     c <> " "%char /\ ~ (65 <= nat_of_ascii c <= 90)) /\
  sanitizeName (sanitizeName s) = sanitizeName s.
Proof.
  induction s as [|c s (IHl & IHc & IHi)]; [split; [done|]; split; [set_solver|done]|].
  rewrite !sanitizeName_cons. simpl. split; [lia|]. split.
  - intros c' [->|Hc']%elem_of_cons; [apply sanitize_char_clean|auto].
  - rewrite IHi. f_equal. apply sanitize_char_idem.
Qed.

(** *** [_tostr] with a format that always returns *)

Lemma extend_each_char {A} (f : nat -> A -> res (list string)) (b : A -> bool)
    (g : nat -> A -> list string) (l : list A) :
  (forall i x, x ∈ l -> f i x = if b x then Ok (g i x) else Raise IndexError) ->
  forall i, extend_each f i l = if forallb b l then Ok (flat_each g i l) else Raise IndexError.
Proof.
  induction l as [|x l IH]; intros H i; [done|]. simpl.
  rewrite H by set_solver. destruct (b x); simpl; [|done].
  rewrite IH by set_solver. by destruct (forallb b l).
Qed.

Lemma flat_each_fmap {A B C} (F : B -> C) (h : nat -> A -> list B) (l : list A) i :
  F <$> flat_each h i l = flat_each (fun j x => F <$> h j x) i l.
Proof. revert i. induction l as [|x l IH]; intros i; simpl; [done|]. by rewrite fmap_app, IH. Qed.

Lemma flat_each_ext {A B} (h1 h2 : nat -> A -> list B) (l : list A) i :
  (forall j x, h1 j x = h2 j x) -> flat_each h1 i l = flat_each h2 i l.
Proof. intros H. revert i. induction l as [|x l IH]; intros i; simpl; [done|]. by rewrite H, IH. Qed.

Lemma tostr_inner_fits name fmt (f : scalar -> scalar) :
  (forall s, apply_fmt fmt s = Ok (f s)) ->
  forall v parts axes,
  _tostr_inner name fmt parts v axes =
    if fits v (length axes)
    then Ok ((fun p => leaf_line name (parts ++ zip_with mk_label axes p.1) (f p.2)) <$> paths v)
    else Raise IndexError.
Proof.
  intros Hf v. induction v as [s|l IH|fs IH|kv IH] using pyval_ind'; intros parts axes.
  - simpl. rewrite Hf. simpl. by rewrite zip_with_nil_r, app_nil_r.
  - destruct axes as [|a axes'].
    + simpl. rewrite (extend_each_char _ (fun _ => false) (fun _ _ => [])) by done.
      by destruct l.
    + simpl. rewrite (extend_each_char _ (fun x => fits x (length axes'))
        (fun i x => (fun p => leaf_line name ((parts ++ [mk_label a (str_nat i)]) ++
                       zip_with mk_label axes' p.1) (f p.2)) <$> paths x)).
      * destruct (forallb _ l); [|done]. f_equal. rewrite flat_each_fmap.
        apply flat_each_ext. intros j x. rewrite <- list_fmap_compose.
        apply list_fmap_ext. intros _ [path s] _. simpl. apply leaf_line_app.
      * intros i x Hx. rewrite Forall_forall in IH. simpl. by rewrite IH.
  - destruct axes as [|a axes'].
    + simpl. rewrite (extend_each_char _ (fun _ => false) (fun _ _ => [])) by done.
      by destruct fs.
    + simpl. rewrite (extend_each_char _ (fun kv => fits kv.2 (length axes'))
        (fun _ kv => (fun p => leaf_line name ((parts ++ [mk_label a kv.1]) ++
                       zip_with mk_label axes' p.1) (f p.2)) <$> paths kv.2)).
      * destruct (forallb _ fs); [|done]. f_equal. rewrite flat_each_fmap.
        apply flat_each_ext. intros j x. rewrite <- list_fmap_compose.
        apply list_fmap_ext. intros _ [path s] _. simpl. apply leaf_line_app.
      * intros i x Hx. rewrite Forall_forall in IH. simpl. by rewrite IH.
  - destruct axes as [|a axes'].
    + simpl. rewrite (extend_each_char _ (fun _ => false) (fun _ _ => [])) by done.
      by destruct kv.
    + simpl. rewrite (extend_each_char _ (fun kv => fits kv.2 (length axes'))
        (fun _ kv => (fun p => leaf_line name ((parts ++ [mk_label a kv.1]) ++
                       zip_with mk_label axes' p.1) (f p.2)) <$> paths kv.2)).
      * destruct (forallb _ kv); [|done]. f_equal. rewrite flat_each_fmap.
        apply flat_each_ext. intros j x. rewrite <- list_fmap_compose.
        apply list_fmap_ext. intros _ [path s] _. simpl. apply leaf_line_app.
      * intros i x Hx. rewrite Forall_forall in IH. simpl. by rewrite IH.
Qed.

(** X9: with a [fmt] that always returns ([f s] for the scalar [s]),
    [_tostr] raises [IndexError] exactly when some non-empty list,
    namedtuple or dict sits at a depth of at least the number of axis
    names; otherwise it returns one line per scalar.  When no formatted
    scalar is a float, these lines are, in traversal order, the metric
    name, the axis names paired with the keys crossed to reach the scalar,
    and the scalar. *)
Theorem tostr_success_iff_fits (name : string) (fmt : option (scalar -> res scalar))
    (f : scalar -> scalar) (v : pyval) (axes : list string) :
  (forall s, apply_fmt fmt s = Ok (f s)) ->
  (match _tostr name fmt v axes with
   | Ok ls => fits v (length axes) = true /\ length ls = length (paths v)
   | Raise e => fits v (length axes) = false /\ e = IndexError
   end) /\
  (Forall (fun p => is_float (f p.2) = false) (paths v) ->
   _tostr name fmt v axes =
     if fits v (length axes)
     then Ok ((fun p => leaf_line name (zip_with mk_label axes p.1) (f p.2)) <$> paths v)
     else Raise IndexError).
Proof.
  intros Hf. unfold _tostr. rewrite (tostr_inner_fits name fmt f Hf v [] axes).
  split.
  - destruct (fits v (length axes)); [|done]. split; [done|]. by rewrite length_fmap.
  - intros _. destruct (fits v (length axes)); reflexivity.
Qed.

Lemma tostr_success_iff_fits_witness :
  let v := VList [VScalar (SInt 1); VScalar (SStr "up")] in
  ((forall s, apply_fmt None s = Ok (id s)) /\
   Forall (fun p => is_float (id p.2) = false) (paths v)) /\
  (match _tostr "m" None v ["id"] with
   | Ok ls => fits v (length ["id"]) = true /\ length ls = length (paths v)
   | Raise e => fits v (length ["id"]) = false /\ e = IndexError
   end) /\
  _tostr "m" None v ["id"] =
    (if fits v (length ["id"])
     then Ok ((fun p => leaf_line "m" (zip_with mk_label ["id"] p.1) (id p.2)) <$> paths v)
     else Raise IndexError).
Proof.
  intros v.
  assert (Hf : forall s, apply_fmt None s = Ok (id s)) by reflexivity.
  assert (Hp : Forall (fun p => is_float (id p.2) = false) (paths v)) by (repeat constructor).
  split; [split; assumption|].
  destruct (tostr_success_iff_fits "m" None id v ["id"] Hf) as [H1 H2].
  split; [exact H1 | exact (H2 Hp)].
Defined.

(** *** [coretemp] *)

Lemma map_res_total {A B} (g : A -> res B) (l : list A) :
  (forall x, exists y, g x = Ok y) -> exists ys, map_res g l = Ok ys /\ length ys = length l.
Proof.
  intros Hg. induction l as [|x l (ys & Hys & Hlen)]; [by exists []|].
  destruct (Hg x) as [y Hy]. exists (y :: ys). simpl. rewrite Hy, Hys. simpl. auto.
Qed.

Lemma feature_input_cases (get_value : chip -> nat -> res scalar) c f :
  (forall c n, exists v, get_value c n = Ok v) ->
  match feature_input get_value c f with
  | Ok _ => has_input f = true
  | Raise e => e = KeyError "input" /\ has_input f = false
  end.
Proof.
  intros Hg. unfold feature_input.
  destruct (map_res_total (fun sf => get_value c (sf_number sf)) (f_subfeatures f))
    as (vals & Hv & Hlen); [intros; apply Hg|].
  rewrite Hv. simpl.
  assert (Hin : has_input f = true <-> "input" ∈ map (sf_key f) (f_subfeatures f)).
  { unfold has_input. rewrite existsb_exists, list_elem_of_In, in_map_iff.
    split; intros (sf & H1 & H2); exists sf; split; try done.
    - by apply String.eqb_eq. - by apply String.eqb_eq. }
  pose proof (dict_get_keys (dict_of_pairs (zip (map (sf_key f) (f_subfeatures f)) vals)) "input")
    as Hk.
  assert (Hz : (zip (map (sf_key f) (f_subfeatures f)) vals).*1 = map (sf_key f) (f_subfeatures f))
    by (apply fst_zip; rewrite length_map; lia).
  unfold dict_of_pairs in *. destruct (dict_get _ _) as [v|e].
  - rewrite fold_dict_set_keys, Hz in Hk. apply Hin. set_solver.
  - destruct Hk as [-> Hk]. rewrite fold_dict_set_keys, Hz in Hk.
    split; [done|]. apply not_true_iff_false. rewrite Hin. set_solver.
Qed.

Lemma chip_loop_cases (get_value : chip -> nat -> res scalar) c fs :
  (forall c n, exists v, get_value c n = Ok v) ->
  forall chipdata,
  match chip_loop get_value c fs chipdata with
  | Ok _ => forallb has_input fs = true
  | Raise e => e = KeyError "input" /\ forallb has_input fs = false
  end.
Proof.
  intros Hg. induction fs as [|f fs IH]; intros chipdata; [done|]. simpl.
  pose proof (feature_input_cases get_value c f Hg) as Hf.
  destruct (feature_input get_value c f); simpl.
  - rewrite Hf. apply IH.
  - destruct Hf as [-> ->]. done.
Qed.

(** X10: when every sensor reading returns, [coretemp()] raises
    [KeyError("input")] exactly when some feature of some chip has no
    subfeature whose name, past the feature name and one more
    character, is [input]; otherwise it returns. *)
Theorem coretemp_requires_input (get_value : chip -> nat -> res scalar) (cs : list chip) :
  (forall c n, exists v, get_value c n = Ok v) ->
  match coretemp get_value cs with
  | Ok _ => forallb (fun c => forallb has_input (chip_features c)) cs = true
  | Raise e => e = KeyError "input" /\ forallb (fun c => forallb has_input (chip_features c)) cs = false
  end.
Proof.
  intros Hg. unfold coretemp. generalize (@nil (string * pyval)) as rv.
  induction cs as [|c cs IH]; intros rv; [done|]. simpl.
  pose proof (chip_loop_cases get_value c (chip_features c) Hg []) as Hc.
  destruct (chip_loop get_value c (chip_features c) []); simpl.
  - rewrite Hc. apply IH.
  - destruct Hc as [-> ->]. done.
Qed.

Lemma coretemp_requires_input_witness :
  let cs := [mk_chip "coretemp-isa-0000" [mk_feature "temp1" "Core 0" [mk_subfeature "temp1_max" 2]]] in
  (forall (c : chip) (n : nat), exists v, (fun _ n => Ok (SInt (Z.of_nat n))) c n = Ok v) /\
  match coretemp (fun _ n => Ok (SInt (Z.of_nat n))) cs with
  | Ok _ => forallb (fun c => forallb has_input (chip_features c)) cs = true
  | Raise e => e = KeyError "input" /\ forallb (fun c => forallb has_input (chip_features c)) cs = false
  end.
Proof.
  intros cs. split; [intros; eexists; reflexivity|].
  exact (coretemp_requires_input (fun _ n => Ok (SInt (Z.of_nat n))) cs
           (fun c n => ex_intro _ _ eq_refl)).
Defined.

(** *** [GPUMeta] *)

Lemma add_devices_all {handle} (getH : nat -> res handle) (getU : handle -> res string)
    (h : nat -> handle) (u : nat -> string) (l : list nat) ids :
  (forall i, i ∈ l -> getH i = Ok (h i) /\ getU (h i) = Ok (u i)) ->
  add_devices getH getU l ids = (Ok tt, ids ++ ((fun i => (u i, h i)) <$> l)).
Proof.
  revert ids. induction l as [|i l IH]; intros ids Hl; simpl.
  - by rewrite app_nil_r.
  - destruct (Hl i) as [-> ->]; [set_solver|]. rewrite IH by set_solver.
    by rewrite <- app_assoc.
Qed.

(** X11: the first call of a [GPUMeta] wrapper, when the [n] devices
    enumerate without error, appends [(uuid, handle)] for each device in
    index order to the list [_id_handles] shared by all wrappers, and
    still returns the empty list.  A second wrapper's first call appends
    the devices again, so the shared list holds them twice. *)
Theorem gpumeta_first_call_appends {handle} (n : nat) (getH : nat -> res handle)
    (getU : handle -> res string) (h : nat -> handle) (u : nat -> string)
    (fn fn' : handle -> res pyval) (ids : list (string * handle)) :
  (forall i, i < n -> getH i = Ok (h i) /\ getU (h i) = Ok (u i)) ->
  let devs := (fun i => (u i, h i)) <$> seq 0 n in
  GPUMeta_call (Ok n) getH getU fn (mk_gpumeta_state false ids) =
    (Ok (VList []), mk_gpumeta_state true (ids ++ devs)) /\
  GPUMeta_call (Ok n) getH getU fn' (mk_gpumeta_state false (ids ++ devs)) =
    (Ok (VList []), mk_gpumeta_state true (ids ++ devs ++ devs)).
Proof.
  intros Hd devs. unfold GPUMeta_call. simpl.
  rewrite !(add_devices_all getH getU h u)
    by (intros i Hi; apply Hd; apply elem_of_seq in Hi; lia).
  by rewrite <- app_assoc.
Qed.

Lemma gpumeta_first_call_appends_witness :
  (forall i, i < 2 -> (Ok i : res nat) = Ok i /\ (Ok ("GPU-" +:+ str_nat i) : res string) = Ok ("GPU-" +:+ str_nat i)) /\
  GPUMeta_call (Ok 2) Ok (fun i => Ok ("GPU-" +:+ str_nat i)) (fun _ => Ok (VScalar (SInt 1)))
    (mk_gpumeta_state false []) =
    (Ok (VList []), mk_gpumeta_state true [("GPU-0", 0); ("GPU-1", 1)]).
Proof.
  split; [intros; split; reflexivity|].
  apply (proj1 (gpumeta_first_call_appends 2 Ok (fun i => Ok ("GPU-" +:+ str_nat i)) id
                  (fun i => "GPU-" +:+ str_nat i) (fun _ => Ok (VScalar (SInt 1)))
                  (fun _ => Ok (VScalar (SInt 1))) [] (fun i _ => conj eq_refl eq_refl))).
Defined.

(** *** Sequences of enters and exits *)

Lemma scope_seq_app {World} si nv (cpu : World -> World) ops1 ops2 (s : state World) :
  scope_seq si nv cpu (ops1 ++ ops2) s =
  match scope_seq si nv cpu ops1 s with
  | (Ok _, s') => scope_seq si nv cpu ops2 s'
  | (Raise e, s') => (Raise e, s')
  end.
Proof.
  revert s. induction ops1 as [|op ops1 IH]; intros s; [reflexivity|].
  cbn [app scope_seq]. unfold m_bind.
  destruct (scope_op si nv cpu op s) as [[u|e] s1]; [apply IH|reflexivity].
Qed.

Lemma scope_seq_enter {World} si nv (cpu : World -> World) i ops (s : state World) :
  scope_seq si nv cpu ((true, i) :: ops) s =
  match obj_enter si nv cpu i s with
  | (Ok _, s') => scope_seq si nv cpu ops s'
  | (Raise e, s') => (Raise e, s')
  end.
Proof.
  simpl. unfold scope_op, m_bind. simpl. by destruct (obj_enter si nv cpu i s) as [[]].
Qed.

Lemma scope_seq_exit {World} si nv (cpu : World -> World) i ops (s : state World) :
  scope_seq si nv cpu ((false, i) :: ops) s =
  match obj_exit i s with
  | (Ok _, s') => scope_seq si nv cpu ops s'
  | (Raise e, s') => (Raise e, s')
  end.
Proof. reflexivity. Qed.

Lemma getattr_set_other {World} c (m : Metric World) d k k' v :
  k <> k' -> getattr (mkObj c m (<[k := v]> d)) k' = getattr (mkObj c m d) k'.
Proof. intros Hne. unfold getattr. simpl. by rewrite lookup_insert_ne. Qed.

Lemma getattr_set_same {World} c (m : Metric World) d k v :
  getattr (mkObj c m (<[k := v]> d)) k = Ok v.
Proof. unfold getattr. simpl. by rewrite lookup_insert_eq. Qed.

Lemma gpu_enter_fresh {World} si (cpu : World -> World) (s : state World) i o :
  heap s !! i = Some o -> o_cls o = CGPUMetric -> o_dict o = ∅ ->
  exists s' o', obj_enter si (Ok tt) cpu i s = (Ok i, s') /\
    backend_log s' = backend_log s ++ [NvmlInit] /\ heap s' !! i = Some o' /\
    o_cls o' = CGPUMetric /\ getattr o' "_NVMLInitAttempted" = Ok (ABool true) /\
    getattr o' "_NVMLInitSuccess" = Ok (ABool true).
Proof.
  intros Hi Hc Hd.
  assert (Ha : getattr o "_NVMLInitAttempted" = Ok (ABool false))
    by (unfold getattr; rewrite Hd, Hc; reflexivity).
  unfold obj_enter. step. rewrite Hc. unfold GPUMetric_enter, Metric_enter.
  step. step. simpl negb. cbv iota.
  step. step. step. rewrite Hc, Hd. simpl.
  eexists _, _. split; [reflexivity|]. split; [reflexivity|].
  split; [heap_lookup|]. simpl. split; [done|]. split; reflexivity.
Qed.

Lemma gpu_enter_live {World} si nv (cpu : World -> World) (s : state World) i o :
  heap s !! i = Some o -> o_cls o = CGPUMetric ->
  getattr o "_NVMLInitAttempted" = Ok (ABool true) ->
  obj_enter si nv cpu i s = (Ok i, s).
Proof.
  intros Hi Hc Ha. unfold obj_enter. step. rewrite Hc. unfold GPUMetric_enter, Metric_enter.
  step. step. simpl negb. cbv iota. step. reflexivity.
Qed.

Lemma gpu_exit_live {World} (s : state World) i o :
  heap s !! i = Some o -> o_cls o = CGPUMetric ->
  getattr o "_NVMLInitSuccess" = Ok (ABool true) ->
  obj_exit i s = (Ok tt, set_log (backend_log s ++ [NvmlShutdown]) s).
Proof.
  intros Hi Hc Hs. unfold obj_exit. step. rewrite Hc. unfold GPUMetric_exit, Metric_exit.
  step. simpl truthy. cbv iota. step. reflexivity.
Qed.

Lemma gpu_enters_live {World} si nv (cpu : World -> World) (s : state World) i o m :
  heap s !! i = Some o -> o_cls o = CGPUMetric ->
  getattr o "_NVMLInitAttempted" = Ok (ABool true) ->
  scope_seq si nv cpu (repeat (true, i) m) s = (Ok tt, s).
Proof.
  intros Hi Hc Ha. induction m as [|m IH]; [reflexivity|].
  cbn [repeat]. rewrite scope_seq_enter. by rewrite (gpu_enter_live si nv cpu s i o).
Qed.

Lemma gpu_exits_live {World} si nv (cpu : World -> World) i o m :
  forall (s : state World),
  heap s !! i = Some o -> o_cls o = CGPUMetric ->
  getattr o "_NVMLInitSuccess" = Ok (ABool true) ->
  scope_seq si nv cpu (repeat (false, i) m) s =
    (Ok tt, set_log (backend_log s ++ repeat NvmlShutdown m) s).
Proof.
  induction m as [|m IH]; intros s Hi Hc Hs.
  - simpl. rewrite app_nil_r. by destruct s.
  - cbn [repeat]. rewrite scope_seq_exit, (gpu_exit_live s i o) by done.
    rewrite IH by done. simpl. by rewrite <- app_assoc.
Qed.

(** X12: for a [GPUMetric] whose [nvmlInit()] succeeds, after [k + 1]
    enters followed by [j] exits the backend calls made are [nvmlInit]
    once, by the first enter (the later enters call nothing), then one
    [nvmlShutdown] per exit: [j] of them, also when [j] exceeds the number
    of enters, and [m + 1] for [m + 1] nested enters and exits. *)
Theorem gpu_nested_scopes_log {World} (si : res unit) (cpu : World -> World)
    (s : state World) (i k j : nat) (o : obj World) :
  heap s !! i = Some o -> o_cls o = CGPUMetric -> o_dict o = ∅ ->
  exists s', scope_seq si (Ok tt) cpu (repeat (true, i) (S k) ++ repeat (false, i) j) s = (Ok tt, s') /\
    backend_log s' = backend_log s ++ NvmlInit :: repeat NvmlShutdown j.
Proof.
  intros Hi Hc Hd.
  destruct (gpu_enter_fresh si cpu s i o Hi Hc Hd) as (s1 & o1 & He & Hl & Hi1 & Hc1 & Ha1 & Hs1).
  cbn [repeat app]. rewrite scope_seq_enter, He, scope_seq_app.
  rewrite (gpu_enters_live si (Ok tt) cpu s1 i o1) by done.
  rewrite (gpu_exits_live si (Ok tt) cpu i o1) by done.
  eexists. split; [reflexivity|]. simpl. rewrite Hl. by rewrite <- app_assoc.
Qed.

Lemma gpu_nested_scopes_log_witness :
  let o := fresh CGPUMetric (gauge "gpu_temp" (Ok (VList []))) in
  let s := init_state [o] in
  (heap s !! 0 = Some o /\ o_cls o = CGPUMetric /\ o_dict o = ∅) /\
  exists s', scope_seq (Ok tt) (Ok tt) id (repeat (true, 0) 2 ++ repeat (false, 0) 3) s = (Ok tt, s') /\
    backend_log s' = backend_log s ++ NvmlInit :: repeat NvmlShutdown 3.
Proof.
  intros o s. split; [split; [reflexivity|split; reflexivity]|].
  exact (gpu_nested_scopes_log (Ok tt) id s 0 1 3 o eq_refl eq_refl eq_refl).
Defined.

Lemma sensor_enter_fresh {World} nv (cpu : World -> World) (s : state World) i o :
  heap s !! i = Some o -> o_cls o = CSensorMetric -> o_dict o = ∅ ->
  exists s' o', obj_enter (Ok tt) nv cpu i s = (Ok i, s') /\
    backend_log s' = backend_log s ++ [SensorsInit] /\ heap s' !! i = Some o' /\
    sensor_live o' 1.
Proof.
  destruct o as [oc om od]. intros Hi Hc Hd. simpl in Hc, Hd. subst oc od.
  unfold obj_enter. step. cbn [o_cls]. unfold SensorMetric_enter, Metric_enter.
  step. step. simpl negb. cbv iota.
  step. step. step. step. simpl truthy. cbv iota. step. simpl py_add.
  step. step. simpl.
  eexists _, _. split; [reflexivity|]. split; [reflexivity|].
  split; [heap_lookup|]. unfold sensor_live. simpl. repeat split; reflexivity.
Qed.

Lemma sensor_enter_live {World} nv (cpu : World -> World) (s : state World) i o c :
  heap s !! i = Some o -> sensor_live o c ->
  exists s' o', obj_enter (Ok tt) nv cpu i s = (Ok i, s') /\
    backend_log s' = backend_log s /\ heap s' !! i = Some o' /\ sensor_live o' (c + 1).
Proof.
  destruct o as [oc om od]. intros Hi (Hc & Ha & Hs & Hn). simpl in Hc. subst oc.
  unfold obj_enter. step. cbn [o_cls]. unfold SensorMetric_enter, Metric_enter.
  step. step. simpl negb. cbv iota. step. step. simpl truthy. cbv iota.
  step. simpl py_add. step. step.
  eexists _, _. split; [reflexivity|]. split; [reflexivity|].
  split; [heap_lookup|]. unfold sensor_live. simpl.
  rewrite !getattr_set_other by done. rewrite getattr_set_same. done.
Qed.

Lemma sensor_exit_live {World} (s : state World) i o c :
  heap s !! i = Some o -> sensor_live o c ->
  exists s' o', obj_exit i s = (Ok tt, s') /\
    backend_log s' = backend_log s ++ (if Z.eqb (c - 1) 0 then [SensorsCleanup] else []) /\
    heap s' !! i = Some o' /\ sensor_live o' (c - 1).
Proof.
  destruct o as [oc om od]. intros Hi (Hc & Ha & Hs & Hn). simpl in Hc. subst oc.
  replace (c - 1)%Z with (c + -1)%Z by lia.
  unfold obj_exit. step. cbn [o_cls]. unfold SensorMetric_exit, Metric_exit.
  step. simpl truthy. cbv iota. step. simpl py_add. step. step.
  repeat rewrite bind_assoc_at.
  erewrite bind_ok by (eapply m_getattr_ok; [heap_lookup | apply getattr_set_same]).
  cbv beta. simpl py_eq_int.
  set (o' := mkObj CSensorMetric om (<["_initCount" := AInt (c + -1)]> od)).
  assert (Hl : heap (set_heap (<[i := o']> (heap s)) s) !! i = Some o') by heap_lookup.
  assert (Hlive : sensor_live o' (c + -1)).
  { unfold sensor_live, o'. simpl. rewrite !getattr_set_other by done.
    rewrite getattr_set_same. done. }
  destruct (Z.eqb (c + -1) 0); unfold m_bind, m_call, m_ret; simpl;
    (eexists _, o'; split; [reflexivity|]; split; [simpl; rewrite ?app_nil_r; done|]; done).
Qed.

Lemma sensor_enters_live {World} nv (cpu : World -> World) i m :
  forall (s : state World) o c,
  heap s !! i = Some o -> sensor_live o c ->
  exists s' o', scope_seq (Ok tt) nv cpu (repeat (true, i) m) s = (Ok tt, s') /\
    backend_log s' = backend_log s /\ heap s' !! i = Some o' /\ sensor_live o' (c + Z.of_nat m).
Proof.
  induction m as [|m IH]; intros s o c Hi Hl.
  - exists s, o. rewrite Z.add_0_r. auto.
  - destruct (sensor_enter_live nv cpu s i o c Hi Hl) as (s1 & o1 & He & Hlog & Hi1 & Hl1).
    cbn [repeat]. rewrite scope_seq_enter, He.
    destruct (IH s1 o1 (c + 1)%Z Hi1 Hl1) as (s2 & o2 & Hr & Hlog2 & Hi2 & Hl2).
    exists s2, o2. rewrite Hr. split; [done|]. split; [congruence|]. split; [done|].
    replace (c + Z.of_nat (S m))%Z with (c + 1 + Z.of_nat m)%Z by lia. done.
Qed.

Lemma sensor_exits_live {World} nv (cpu : World -> World) i m :
  forall (s : state World) o c,
  heap s !! i = Some o -> sensor_live o c -> (Z.of_nat m < c)%Z ->
  exists s' o', scope_seq (Ok tt) nv cpu (repeat (false, i) m) s = (Ok tt, s') /\
    backend_log s' = backend_log s /\ heap s' !! i = Some o' /\ sensor_live o' (c - Z.of_nat m).
Proof.
  induction m as [|m IH]; intros s o c Hi Hl Hm.
  - exists s, o. rewrite Z.sub_0_r. auto.
  - destruct (sensor_exit_live s i o c Hi Hl) as (s1 & o1 & He & Hlog & Hi1 & Hl1).
    rewrite (proj2 (Z.eqb_neq _ 0)) in Hlog by lia. rewrite app_nil_r in Hlog.
    cbn [repeat]. rewrite scope_seq_exit, He.
    destruct (IH s1 o1 (c - 1)%Z Hi1 Hl1) as (s2 & o2 & Hr & Hlog2 & Hi2 & Hl2); [lia|].
    exists s2, o2. rewrite Hr. split; [done|]. split; [congruence|]. split; [done|].
    replace (c - Z.of_nat (S m))%Z with (c - 1 - Z.of_nat m)%Z by lia. done.
Qed.

(** X13: for a single [SensorMetric] object whose [sensors.init()]
    succeeds, [m + 1] nested enters followed by [m] exits call
    [sensors.init] once and [sensors.cleanup] never; the last of [m + 1]
    exits then calls [sensors.cleanup] once. *)
Theorem sensor_nested_scopes_log {World} (nv : res unit) (cpu : World -> World)
    (s : state World) (i m : nat) (o : obj World) :
  heap s !! i = Some o -> o_cls o = CSensorMetric -> o_dict o = ∅ ->
  (exists s', scope_seq (Ok tt) nv cpu (repeat (true, i) (S m) ++ repeat (false, i) m) s = (Ok tt, s') /\
     backend_log s' = backend_log s ++ [SensorsInit]) /\
  (exists s', scope_seq (Ok tt) nv cpu (nested_scopes (S m) i) s = (Ok tt, s') /\
     backend_log s' = backend_log s ++ [SensorsInit; SensorsCleanup]).
Proof.
  intros Hi Hc Hd.
  destruct (sensor_enter_fresh nv cpu s i o Hi Hc Hd) as (s1 & o1 & He & Hl & Hi1 & Hl1).
  destruct (sensor_enters_live nv cpu i m s1 o1 1 Hi1 Hl1) as (s2 & o2 & Hr2 & Hlog2 & Hi2 & Hl2).
  destruct (sensor_exits_live nv cpu i m s2 o2 (1 + Z.of_nat m)%Z Hi2 Hl2)
    as (s3 & o3 & Hr3 & Hlog3 & Hi3 & Hl3); [lia|].
  replace (1 + Z.of_nat m - Z.of_nat m)%Z with 1%Z in Hl3 by lia.
  destruct (sensor_exit_live s3 i o3 1 Hi3 Hl3) as (s4 & o4 & Hr4 & Hlog4 & _).
  split.
  - exists s3. cbn [repeat app]. rewrite scope_seq_enter, He, scope_seq_app, Hr2, Hr3.
    split; [done|]. congruence.
  - exists s4. unfold nested_scopes. replace (S m) with (m + 1) at 2 by lia.
    rewrite repeat_app. cbn [repeat app].
    rewrite scope_seq_enter, He, scope_seq_app, Hr2, scope_seq_app, Hr3.
    rewrite scope_seq_exit, Hr4. split; [done|]. rewrite Hlog4, Hlog3, Hlog2, Hl. simpl.
    by rewrite <- app_assoc.
Qed.

Lemma sensor_nested_scopes_log_witness :
  let o := fresh CSensorMetric (gauge "coretemp" (Ok (VDict []))) in
  let s := init_state [o] in
  (heap s !! 0 = Some o /\ o_cls o = CSensorMetric /\ o_dict o = ∅) /\
  exists s', scope_seq (Ok tt) (Ok tt) id (nested_scopes 2 0) s = (Ok tt, s') /\
    backend_log s' = backend_log s ++ [SensorsInit; SensorsCleanup].
Proof.
  intros o s. split; [split; [reflexivity|split; reflexivity]|].
  exact (proj2 (sensor_nested_scopes_log (Ok tt) id s 0 1 o eq_refl eq_refl eq_refl)).
Defined.
